(** * Weather attachment for flight records: a model of [attach_weather.py]

    The development follows the Python module function by function:
    timestamps and their quantisation to quarter hours
    ([round_to_nearest_quarter]), the flight-time parser
    ([parse_time_str]), the chunked weather index ([build_weather_map])
    and the join itself ([attach_weather]).

    Data frames are modelled as a header (the ordered column names) and
    a list of rows, every row being a finite map from column name to
    cell.  The weather index, a Python dictionary, is a finite map
    ([gmap]); a stored observation keeps its fields in column order. *)

From Stdlib Require Import ZArith Ascii String.
From stdpp Require Import base decidable numbers option list strings gmap fin_maps pretty.

Local Open Scope Z_scope.

(** ** Timestamps *)

(** A [pd.Timestamp], by its fields.  Time zones are not modelled: the
    program uses one naive clock throughout. *)
Record Timestamp := mkTimestamp {
  year : Z; month : Z; day : Z;
  hour : Z; minute : Z; second : Z;
  microsecond : Z; nanosecond : Z }.

Global Instance Timestamp_eq_dec : EqDecision Timestamp.
Proof. solve_decision. Defined.

Definition Timestamp_to_tuple (t : Timestamp) : Z * Z * Z * Z * Z * Z * Z * Z :=
  (year t, month t, day t, hour t, minute t, second t, microsecond t, nanosecond t).

Definition Timestamp_of_tuple (p : Z * Z * Z * Z * Z * Z * Z * Z) : Timestamp :=
  let '(y, mo, d, h, mi, s, us, ns) := p in mkTimestamp y mo d h mi s us ns.

Global Instance Timestamp_countable : Countable Timestamp.
Proof.
  refine (inj_countable' Timestamp_to_tuple Timestamp_of_tuple _).
  by intros [].
Defined.

(** Field ranges of a timestamp that denotes a real instant. *)
Definition is_leap (y : Z) : bool :=
  (y mod 4 =? 0) && (negb (y mod 100 =? 0) || (y mod 400 =? 0)).

Definition days_in_month (y m : Z) : Z :=
  if m =? 2 then (if is_leap y then 29 else 28)
  else if (m =? 4) || (m =? 6) || (m =? 9) || (m =? 11) then 30
  else 31.

Definition valid_timestamp (t : Timestamp) : Prop :=
  1 ≤ month t ≤ 12 ∧ 1 ≤ day t ≤ days_in_month (year t) (month t) ∧
  0 ≤ hour t ≤ 23 ∧ 0 ≤ minute t ≤ 59 ∧ 0 ≤ second t ≤ 59 ∧
  0 ≤ microsecond t ≤ 999999 ∧ 0 ≤ nanosecond t ≤ 999.

(** [dt.replace(hour=h, minute=m, second=s, microsecond=us)]: the
    fields that are not named (the date and the nanoseconds) are kept. *)
Definition replace_time (dt : Timestamp) (h m s us : Z) : Timestamp :=
  mkTimestamp (year dt) (month dt) (day dt) h m s us (nanosecond dt).

(** The calendar day after the one of [dt]; the time of day is kept. *)
Definition next_day (dt : Timestamp) : Timestamp :=
  if day dt <? days_in_month (year dt) (month dt) then
    mkTimestamp (year dt) (month dt) (day dt + 1)
                (hour dt) (minute dt) (second dt) (microsecond dt) (nanosecond dt)
  else if month dt <? 12 then
    mkTimestamp (year dt) (month dt + 1) 1
                (hour dt) (minute dt) (second dt) (microsecond dt) (nanosecond dt)
  else
    mkTimestamp (year dt + 1) 1 1
                (hour dt) (minute dt) (second dt) (microsecond dt) (nanosecond dt).

(** [dt + timedelta(seconds=n)] for [0 ≤ n]: the seconds are added to
    the time of day and whole days carry into the calendar date. *)
Definition add_timedelta_seconds (dt : Timestamp) (n : Z) : Timestamp :=
  let total := hour dt * 3600 + minute dt * 60 + second dt + n in
  let r := total mod 86400 in
  let d := Z.iter (total / 86400) next_day dt in
  mkTimestamp (year d) (month d) (day d)
              (r / 3600) (r mod 3600 / 60) (r mod 60)
              (microsecond dt) (nanosecond dt).

(** Python's [round(n / d)] on the quotient of two integers, [0 < d]:
    the nearest integer, a tie going to the even neighbour.  (The
    quotient is a float in Python; for the magnitudes of a day in
    seconds the float is exact at ties and far from them otherwise, so
    the integer formulation below coincides with it.) *)
Definition py_round_div (n d : Z) : Z :=
  let q := n / d in
  let r := n mod d in
  if 2 * r <? d then q
  else if d <? 2 * r then q + 1
  else if Z.even q then q else q + 1.

(** [round_to_nearest_quarter]; [None] is [pd.NaT]. *)
Definition round_to_nearest_quarter (dt : option Timestamp) : option Timestamp :=
  match dt with
  | None => None
  | Some dt =>
      let seconds := hour dt * 3600 + minute dt * 60 + second dt in
      let nearest := py_round_div seconds (15 * 60) * (15 * 60) in
      let base := replace_time dt 0 0 0 0 in
      Some (add_timedelta_seconds base nearest)
  end.

(** ** Cells *)

(** What a cell of a data frame, or a scalar handed to a helper, can be:
    Python's [None], a float [nan], [pd.NA], [pd.NaT], a string, an
    integer or a timestamp.  Floating-point observations are not
    modelled; the program only copies observation fields. *)
Inductive value :=
  | VNone | VNaN | VNA | VNaT
  | VStr (s : string)
  | VInt (n : Z)
  | VTs (t : Timestamp).

Global Instance value_eq_dec : EqDecision value.
Proof. solve_decision. Defined.

(** [pd.isna] and [pd.notna] on a scalar. *)
Definition isna (v : value) : bool :=
  match v with
  | VNone | VNaN | VNA | VNaT => true
  | _ => false
  end.

Definition notna (v : value) : bool := negb (isna v).

Definition value_of_ts (o : option Timestamp) : value :=
  match o with Some t => VTs t | None => VNaT end.

Definition ts_of_value (v : value) : option Timestamp :=
  match v with VTs t => Some t | _ => None end.

(** ** Strings *)

(** Strings are byte strings here; the Python methods below are
    modelled on ASCII, bytes above 127 being left alone. *)
Module Str.

(** The ASCII characters that [str.strip] removes. *)
Definition is_space (c : ascii) : bool :=
  let n := nat_of_ascii c in
  ((9 <=? n) && (n <=? 13) || (28 <=? n) && (n <=? 32))%nat.

Definition is_digit (c : ascii) : bool :=
  let n := nat_of_ascii c in ((48 <=? n) && (n <=? 57))%nat.

Definition digit_val (c : ascii) : Z := Z.of_nat (nat_of_ascii c) - 48.

Fixpoint lstrip (s : string) : string :=
  match s with
  | String c r => if is_space c then lstrip r else s
  | EmptyString => EmptyString
  end.

Definition rstrip (s : string) : string := String.rev (lstrip (String.rev s)).

(** [s.strip()] *)
Definition strip (s : string) : string := rstrip (lstrip s).

Definition upper_char (c : ascii) : ascii :=
  let n := nat_of_ascii c in
  if ((97 <=? n) && (n <=? 122))%nat then ascii_of_nat (n - 32) else c.

(** [s.upper()] *)
Fixpoint upper (s : string) : string :=
  match s with
  | String c r => String (upper_char c) (upper r)
  | EmptyString => EmptyString
  end.

(** [int(d)] for a string [d] of decimal digits. *)
Fixpoint int_digits_from (acc : Z) (d : string) : Z :=
  match d with
  | String c r => int_digits_from (10 * acc + digit_val c) r
  | EmptyString => acc
  end.

Definition int_digits (d : string) : Z := int_digits_from 0 d.

Fixpoint all_digits (s : string) : bool :=
  match s with
  | String c r => is_digit c && all_digits r
  | EmptyString => true
  end.

Fixpoint replicate0 (n : nat) : string :=
  match n with
  | O => EmptyString
  | S n => String "0" (replicate0 n)
  end.

(** [d.zfill(w)] for a string without a sign. *)
Definition zfill (w : nat) (d : string) : string :=
  replicate0 (w - String.length d) +:+ d.

(** [d[:n]] and [d[n:]] *)
Fixpoint take (n : nat) (s : string) : string :=
  match n, s with
  | S n, String c r => String c (take n r)
  | _, _ => EmptyString
  end.

Fixpoint drop (n : nat) (s : string) : string :=
  match n, s with
  | S n, String _ r => drop n r
  | _, _ => s
  end.

End Str.

(** [str(t)] of a timestamp: ISO date and time, the fraction of a
    second printed only when there is one. *)
Definition Timestamp_str (t : Timestamp) : string :=
  let p2 (n : Z) := Str.zfill 2 (pretty n) in
  let frac :=
    if (microsecond t =? 0) && (nanosecond t =? 0) then ""
    else if nanosecond t =? 0 then "." +:+ Str.zfill 6 (pretty (microsecond t))
    else "." +:+ Str.zfill 6 (pretty (microsecond t)) +:+ Str.zfill 3 (pretty (nanosecond t)) in
  Str.zfill 4 (pretty (year t)) +:+ "-" +:+ p2 (month t) +:+ "-" +:+ p2 (day t) +:+ " " +:+
  p2 (hour t) +:+ ":" +:+ p2 (minute t) +:+ ":" +:+ p2 (second t) +:+ frac.

(** [str(v)], which is also what [Series.astype(str)] puts in a cell. *)
Definition py_str (v : value) : string :=
  match v with
  | VNone => "None"
  | VNaN => "nan"
  | VNA => "<NA>"
  | VNaT => "NaT"
  | VStr s => s
  | VInt n => pretty n
  | VTs t => Timestamp_str t
  end.

(** [col.astype(str).str.strip().str.upper()] on one cell: the
    normalisation of a station code. *)
Definition normalize_station (v : value) : string :=
  Str.upper (Str.strip (py_str v)).

(** ** The flight-time parser *)

Module Re.

(** [(\d{2})] at the head of [s]: the group and the rest. *)
Definition two_digits (s : string) : option (string * string) :=
  match s with
  | String a (String b r) =>
      if Str.is_digit a && Str.is_digit b
      then Some (String a (String b EmptyString), r) else None
  | _ => None
  end.

(** [:?(\d{2})] at the head of [s]: the colon is tried first and
    given back when what follows it does not match. *)
Definition colon_two_digits (s : string) : option string :=
  let with_colon :=
    match s with
    | String ":" r => fst <$> two_digits r
    | _ => None
    end in
  match with_colon with
  | Some g => Some g
  | None => fst <$> two_digits s
  end.

(** [(\d{1,2}):?(\d{2})] at the head of [s].  [\d{1,2}] is greedy:
    two digits first, one digit when the rest then fails. *)
Definition hhmm_here (s : string) : option (string * string) :=
  match s with
  | String a r =>
      if Str.is_digit a then
        let one := (λ g2, (String a EmptyString, g2)) <$> colon_two_digits r in
        match r with
        | String b r2 =>
            if Str.is_digit b then
              match colon_two_digits r2 with
              | Some g2 => Some (String a (String b EmptyString), g2)
              | None => one
              end
            else one
        | EmptyString => one
        end
      else None
  | EmptyString => None
  end.

(** [re.search(r"(\d{1,2}):?(\d{2})", s)]: the leftmost match, as
    its two groups. *)
Fixpoint search_hhmm (s : string) : option (string * string) :=
  match hhmm_here s with
  | Some g => Some g
  | None =>
      match s with
      | String _ r => search_hhmm r
      | EmptyString => None
      end
  end.

Fixpoint take_digits (s : string) : string :=
  match s with
  | String c r => if Str.is_digit c then String c (take_digits r) else EmptyString
  | EmptyString => EmptyString
  end.

(** [re.search(r"(\d+)", s)]: the first maximal run of digits. *)
Fixpoint search_digits (s : string) : option string :=
  match s with
  | String c r => if Str.is_digit c then Some (take_digits s) else search_digits r
  | EmptyString => None
  end.

End Re.

(** The range check both branches of [parse_time_str] end with. *)
Definition check_hm (h mnt : Z) : option (Z * Z) :=
  if (h =? 24) && (mnt =? 0) then Some (0, 0)
  else if (0 <=? h) && (h <=? 23) && (0 <=? mnt) && (mnt <=? 59) then Some (h, mnt)
  else None.

(** The pair [(h, mnt)] that [parse_time_str] reads off the stripped
    text before it checks the ranges. *)
Definition raw_hm (s : string) : option (Z * Z) :=
  match Re.search_hhmm s with
  | Some (g1, g2) => Some (Str.int_digits g1, Str.int_digits g2)
  | None =>
      match Re.search_digits s with
      | Some d =>
          let d := Str.zfill 4 d in
          Some (Str.int_digits (Str.take 2 d), Str.int_digits (Str.drop 2 d))
      | None => None
      end
  end.

(** [parse_time_str]; the result [None] is Python's [None]. *)
Definition parse_time_str (v : value) : option (Z * Z) :=
  if isna v then None
  else
    let s := Str.strip (py_str v) in
    if decide (s = "") then None
    else
      match Re.search_hhmm s with
      | Some (g1, g2) =>
          let h := Str.int_digits g1 in
          let mnt := Str.int_digits g2 in
          if (h =? 24) && (mnt =? 0) then Some (0, 0)
          else if (0 <=? h) && (h <=? 23) && (0 <=? mnt) && (mnt <=? 59) then Some (h, mnt)
          else None
      | None =>
          match Re.search_digits s with
          | Some d =>
              let d := Str.zfill 4 d in
              let h := Str.int_digits (Str.take 2 d) in
              let mnt := Str.int_digits (Str.drop 2 d) in
              if (h =? 24) && (mnt =? 0) then Some (0, 0)
              else if (0 <=? h) && (h <=? 23) && (0 <=? mnt) && (mnt <=? 59) then Some (h, mnt)
              else None
          | None => None
          end
      end.

(** ** Exceptions *)

Inductive exn :=
  | KeyError (msg : string)
  | ValueError (msg : string).

(** A computation that returns or raises. *)
Inductive result (A : Type) :=
  | Ok (a : A)
  | Raise (e : exn).
Global Arguments Ok {A} a.
Global Arguments Raise {A} e.

Global Instance result_ret : MRet result := λ A a, Ok a.
Global Instance result_bind : MBind result := λ A B f m,
  match m with
  | Ok a => f a
  | Raise e => Raise e
  end.

(** A [for] loop whose body may raise. *)
Fixpoint for_each {S A : Type} (body : S → A → result S) (st : S) (l : list A) : result S :=
  match l with
  | [] => Ok st
  | a :: l => st' ← body st a; for_each body st' l
  end.

(** A comprehension whose element expression may raise. *)
Fixpoint map_result {A B : Type} (f : A → result B) (l : list A) : result (list B) :=
  match l with
  | [] => Ok []
  | a :: l => b ← f a; bs ← map_result f l; Ok (b :: bs)
  end.

(** ** Data frames *)

(** A row: column name to cell. *)
Abbreviation row := (gmap string value).

(** A frame: the ordered column names and the rows. *)
Record frame := mkFrame { columns : list string; rows : list row }.

(** [row.get(c)]: the cell, [None] when the row has no such column. *)
Definition cell (r : row) (c : string) : value := default VNone (r !! c).

(** The header after [df[c] = ...]: a new column goes last, an existing
    one keeps its place. *)
Definition add_column (c : string) (cols : list string) : list string :=
  if decide (c ∈ cols) then cols else cols ++ [c].

(** [df[c] = vals], one value per row. *)
Definition assign (c : string) (vals : list value) (df : frame) : frame :=
  mkFrame (add_column c (columns df))
          (zip_with (λ v r, <[c := v]> r) vals (rows df)).

(** [df[c] = df.apply(f)]-style assignments: the new cell of each row
    is computed from that row. *)
Definition assign_by (c : string) (f : row → value) (df : frame) : frame :=
  assign c (f <$> rows df) df.

(** [df.dropna(subset=[c])] *)
Definition dropna (c : string) (df : frame) : frame :=
  mkFrame (columns df) (filter (λ r, notna (cell r c) = true) (rows df)).

(** ** The weather index *)

(** The weather CSV as [pd.read_csv(..., chunksize=...)] hands it over:
    one header and the records in chunks, in file order. *)
Record weather_csv := mkWeather { wheader : list string; wchunks : list (list row) }.

(** A key of the index: normalised station and quarter-hour bucket. *)
Abbreviation weather_key := (string * Timestamp)%type.

(** A stored observation: field name and value, in column order. *)
Abbreviation rowdict := (list (string * value)).

(** [w.get(c)] on an observation. *)
Fixpoint rowdict_get (w : rowdict) (c : string) : value :=
  match w with
  | [] => VNone
  | (k, v) :: w' => if decide (k = c) then v else rowdict_get w' c
  end.

Definition first_notna (a b : value) : value := if isna a then b else a.

(** What [GroupBy.first()] does to a group that receives one more row:
    every column keeps its first value that is not null. *)
Definition merge_first (acc r : row) : row :=
  union_with (λ a b, Some (first_notna a b)) acc r.

Fixpoint group_add (k : weather_key) (r : row) (g : list (weather_key * row))
  : list (weather_key * row) :=
  match g with
  | [] => [(k, r)]
  | (k', acc) :: g' =>
      if decide (k = k') then (k', merge_first acc r) :: g'
      else (k', acc) :: group_add k r g'
  end.

(** The group key of a prepared weather row; rows with a null key are
    left out by [groupby]. *)
Definition group_key (r : row) : option weather_key :=
  match cell r "station", cell r "valid_15" with
  | VStr s, VTs t => Some (s, t)
  | _, _ => None
  end.

(** [chunk.groupby(["station", "valid_15"], as_index=False).first()]:
    the columns of the grouped frame (the keys first) and its rows, one
    per key.  (pandas lists the groups by sorted key; the keys being
    distinct, the loop over them does not depend on the order, and they
    are listed here by first appearance.) *)
Definition grouped_columns (df : frame) : list string :=
  let keys := ["station"; "valid_15"] in
  keys ++ filter (λ c, c ∉ keys) (columns df).

Definition groupby_first (df : frame) : list (weather_key * row) :=
  foldl (λ g r, match group_key r with
                | Some k => group_add k r g
                | None => g
                end) [] (rows df).

(** The units [parse_flight_date] tries for a numeric date. *)
Inductive time_unit := NS | MS | SEC.

(** pandas' date parser, which is library code and is left abstract:
    [to_datetime s] is the parser on one string, [None] where
    [errors="coerce"] gives [NaT] (and where the strict form raises);
    [to_datetime_unit n u] reads an integer count of [u]s since the
    epoch.  pandas may let the format of the first element decide
    for a whole column; the parser is taken element by element here. *)
Class DateParser := {
  to_datetime : string → option Timestamp;
  to_datetime_unit : Z → time_unit → option Timestamp }.

Section Pipeline.

Context `{DateParser}.

(** [pd.to_datetime(col, errors="coerce")] on one cell. *)
Definition to_datetime_coerce (v : value) : value :=
  match v with
  | VTs t => VTs t
  | VStr s => value_of_ts (to_datetime s)
  | VInt n => value_of_ts (to_datetime_unit n NS)
  | _ => VNaT
  end.

(** [pd.to_datetime(col)] on one cell: raises where it cannot parse. *)
Definition to_datetime_strict (v : value) : result value :=
  match v with
  | VStr s =>
      match to_datetime s with
      | Some t => Ok (VTs t)
      | None => Raise (ValueError "Unknown datetime string format")
      end
  | VInt n =>
      match to_datetime_unit n NS with
      | Some t => Ok (VTs t)
      | None => Raise (ValueError "Out of bounds nanosecond timestamp")
      end
  | VTs t => Ok (VTs t)
  | _ => Ok VNaT
  end.

(** [pd.read_csv(weather_path, parse_dates=["valid"], ...)]: pandas
    refuses a file without the column it is told to parse. *)
Definition read_weather_csv (w : weather_csv) : result (list frame) :=
  if decide ("valid" ∈ wheader w) then Ok (mkFrame (wheader w) <$> wchunks w)
  else Raise (ValueError "Missing column provided to 'parse_dates': 'valid'").

(** Lines 42 to 45: the chunk, normalised, without the rows whose
    [valid] is not a date, and with the bucket column. *)
Definition prepare_chunk (chunk : frame) : frame :=
  let chunk := assign_by "station" (λ r, VStr (normalize_station (cell r "station"))) chunk in
  let chunk := assign_by "valid" (λ r, to_datetime_coerce (cell r "valid")) chunk in
  let chunk := dropna "valid" chunk in
  assign_by "valid_15"
    (λ r, value_of_ts (round_to_nearest_quarter (ts_of_value (cell r "valid")))) chunk.

(** The body of [for _, r in g.iterrows()]. *)
Definition store_group (gcols : list string)
    (st : gmap weather_key rowdict * option (list string))
    (kr : weather_key * row) : gmap weather_key rowdict * option (list string) :=
  let '(mapping, cols) := st in
  let '(key, r) := kr in
  let rowdict :=
    (λ c, (c, cell r c)) <$>
      filter (λ c, c ∉ ["station"; "valid"; "valid_15"]) gcols in
  (<[key := rowdict]> mapping,
   match cols with
   | None => Some (rowdict.*1)
   | Some _ => cols
   end).

(** The body of [for chunk in it]. *)
Definition index_chunk (st : gmap weather_key rowdict * option (list string))
    (chunk : frame) : result (gmap weather_key rowdict * option (list string)) :=
  if decide ("station" ∈ columns chunk) then
    let chunk := prepare_chunk chunk in
    Ok (foldl (store_group (grouped_columns chunk)) st (groupby_first chunk))
  else Raise (KeyError "weather file missing 'station' column").

(** [build_weather_map] *)
Definition build_weather_map (w : weather_csv)
  : result (gmap weather_key rowdict * list string) :=
  it ← read_weather_csv w;
  st ← for_each index_chunk (∅, None) it;
  Ok (st.1, default [] st.2).

(** ** The join *)

(** [re.sub(r"\D", "", s)] *)
Fixpoint only_digits (s : string) : string :=
  match s with
  | String c r => if Str.is_digit c then String c (only_digits r) else only_digits r
  | EmptyString => EmptyString
  end.

(** [parse_flight_date], the local function of [attach_weather]. *)
Definition parse_flight_date (v : value) : value :=
  if isna v then VNaT
  else
    let s := Str.strip (py_str v) in
    match to_datetime s with
    | Some t => VTs t
    | None =>
        let dig := only_digits s in
        if decide (dig = "") then VNaT
        else
          let n := Str.int_digits dig in
          match to_datetime_unit n NS with
          | Some t => VTs t
          | None =>
              match to_datetime_unit n MS with
              | Some t => VTs t
              | None => value_of_ts (to_datetime_unit n SEC)
              end
          end
    end.

(** [int(v)], [None] where Python raises.  For a string: optional
    surrounding blanks, an optional sign, decimal digits. *)
Definition py_int (v : value) : option Z :=
  match v with
  | VInt n => Some n
  | VStr s =>
      let s := Str.strip s in
      let '(neg, d) :=
        match s with
        | String "-" d => (true, d)
        | String "+" d => (false, d)
        | _ => (false, s)
        end in
      if decide (d = "") then None
      else if Str.all_digits d
           then Some (if neg then - Str.int_digits d else Str.int_digits d)
           else None
  | _ => None
  end.

(** [pd.Timestamp(year=yr, month=mo, day=1, hour=h, minute=m)],
    [None] where the constructor raises: a month that does not exist
    or a date outside the range of [pd.Timestamp]. *)
Definition make_timestamp (yr mo h m : Z) : option Timestamp :=
  if (1 <=? mo) && (mo <=? 12) &&
     ((1678 <=? yr) && (yr <=? 2261) ||
      (yr =? 1677) && (10 <=? mo) || (yr =? 2262) && (mo <=? 4))
  then Some (mkTimestamp yr mo 1 h m 0 0 0)
  else None.

(** [compute_rounded_dt], the local function of [attach_weather]. *)
Definition compute_rounded_dt (r : row) (time_col : string) : value :=
  let t := cell r time_col in
  match parse_time_str t with
  | None => VNaT
  | Some (h, m) =>
      let base := cell r "FL_DATE_TS" in
      if isna base then
        match py_int (cell r "YEAR"), py_int (cell r "MONTH") with
        | Some yr, Some mo =>
            match make_timestamp yr mo h m with
            | Some dt => value_of_ts (round_to_nearest_quarter (Some dt))
            | None => VNaT
            end
        | _, _ => VNaT
        end
      else
        match base with
        | VTs base =>
            let dt := replace_time base h m 0 0 in
            value_of_ts (round_to_nearest_quarter (Some dt))
        | _ => VNaT
        end
  end.

(** [ser.dt.year] and [ser.dt.month] on one cell. *)
Definition dt_year (v : value) : value :=
  match v with VTs t => VInt (year t) | _ => VNaN end.
Definition dt_month (v : value) : value :=
  match v with VTs t => VInt (month t) | _ => VNaN end.

(** Lines 158 to 160: [YEAR] and [MONTH] are derived from [FL_DATE]
    when either column is absent. *)
Definition add_year_month (fdf : frame) : result frame :=
  if decide ("YEAR" ∉ columns fdf ∨ "MONTH" ∉ columns fdf) then
    ys ← map_result (λ r, to_datetime_strict (cell r "FL_DATE")) (rows fdf);
    let fdf := assign "YEAR" (dt_year <$> ys) fdf in
    ms ← map_result (λ r, to_datetime_strict (cell r "FL_DATE")) (rows fdf);
    Ok (assign "MONTH" (dt_month <$> ms) fdf)
  else Ok fdf.

(** Lines 175 to 177: the prefixed columns, empty. *)
Definition prepare_weather_columns (weather_cols : list string) (fdf : frame) : frame :=
  foldl (λ fdf wc,
           assign_by ("ARR_" +:+ wc) (λ _, VNA)
             (assign_by ("DEP_" +:+ wc) (λ _, VNA) fdf))
        fdf weather_cols.

(** The key of a leg, as far as it can be one of the index. *)
Definition leg_key (station rounded : value) : option weather_key :=
  if notna rounded then
    match station, rounded with
    | VStr s, VTs t => Some (s, t)
    | _, _ => None
    end
  else None.

(** [for wc in weather_cols: fdf.at[i, prefix + wc] = w.get(wc)] *)
Definition write_fields (pre : string) (weather_cols : list string)
    (w : rowdict) (r : row) : row :=
  foldl (λ r wc, <[pre +:+ wc := rowdict_get w wc]> r) r weather_cols.

(** The body of the attach loop on the row [r] that [iterrows]
    yields: the keys are read from [r], the fields are written to the
    row of the frame at the same index. *)
Definition attach_row (weather_map : gmap weather_key rowdict)
    (weather_cols : list string) (r : row) : row :=
  let origin := cell r "ORIGIN" in
  let dest := cell r "DEST" in
  let dep_key := leg_key origin (cell r "DEP_ROUND") in
  let arr_key := leg_key dest (cell r "ARR_ROUND") in
  let r1 :=
    match dep_key ≫= (weather_map !!.) with
    | Some w => write_fields "DEP_" weather_cols w r
    | None => r
    end in
  match arr_key ≫= (weather_map !!.) with
  | Some w => write_fields "ARR_" weather_cols w r1
  | None => r1
  end.

Definition require_column (c : string) (df : frame) : result unit :=
  if decide (c ∈ columns df) then Ok () else Raise (KeyError c).

(** [attach_weather]: from the weather file and the flights frame
    ([pd.read_csv(flights_path, dtype=str)]) to the frame that is
    written out. *)
Definition attach_weather (w : weather_csv) (fdf : frame) : result frame :=
  wm ← build_weather_map w;
  let '(weather_map, weather_cols) := wm in
  _ ← require_column "FL_DATE" fdf;
  let fdf := assign_by "FL_DATE_TS" (λ r, parse_flight_date (cell r "FL_DATE")) fdf in
  _ ← require_column "ORIGIN" fdf;
  let fdf := assign_by "ORIGIN" (λ r, VStr (normalize_station (cell r "ORIGIN"))) fdf in
  _ ← require_column "DEST" fdf;
  let fdf := assign_by "DEST" (λ r, VStr (normalize_station (cell r "DEST"))) fdf in
  fdf ← add_year_month fdf;
  let dep_rounded := (λ r, compute_rounded_dt r "DEP_TIME") <$> rows fdf in
  let arr_rounded := (λ r, compute_rounded_dt r "ARR_TIME") <$> rows fdf in
  let fdf := assign "DEP_ROUND" dep_rounded fdf in
  let fdf := assign "ARR_ROUND" arr_rounded fdf in
  let fdf := prepare_weather_columns weather_cols fdf in
  Ok (mkFrame (columns fdf) (attach_row weather_map weather_cols <$> rows fdf)).

End Pipeline.

(** ** A concrete date parser

    For closed runs of the pipeline the two parsers are instantiated
    with the ISO 8601 fragment of pandas' parser ([YYYY-MM-DD], with
    an optional [HH:MM:SS] after a blank or a [T]) and with the
    conversion of a count since 1970-01-01 to a date. *)
Module Iso.

(** [n] decimal digits at the head of [s]: their value and the rest. *)
Definition digits (n : nat) (s : string) : option (Z * string) :=
  let d := Str.take n s in
  if decide (String.length d = n) then
    if Str.all_digits d then Some (Str.int_digits d, Str.drop n s) else None
  else None.

Definition expect (c : ascii) (s : string) : option string :=
  match s with
  | String c' r => if decide (c = c') then Some r else None
  | EmptyString => None
  end.

Definition time_of_day (s : string) : option (Z * Z * Z) :=
  p ← digits 2 s; s ← expect ":" p.2;
  q ← digits 2 s; s ← expect ":" q.2;
  u ← digits 2 s;
  if decide (u.2 = "") then
    if (p.1 <=? 23) && (q.1 <=? 59) && (u.1 <=? 59) then Some (p.1, q.1, u.1) else None
  else None.

Definition to_datetime (s : string) : option Timestamp :=
  y ← digits 4 s; s ← expect "-" y.2;
  mo ← digits 2 s; s ← expect "-" mo.2;
  d ← digits 2 s;
  if (1 <=? mo.1) && (mo.1 <=? 12) && (1 <=? d.1) && (d.1 <=? days_in_month y.1 mo.1) then
    match d.2 with
    | EmptyString => Some (mkTimestamp y.1 mo.1 d.1 0 0 0 0 0)
    | String c r =>
        if decide (c = " "%char ∨ c = "T"%char) then
          t ← time_of_day r;
          Some (mkTimestamp y.1 mo.1 d.1 t.1.1 t.1.2 t.2 0 0)
        else None
    end
  else None.

(** The civil date of a day count since 1970-01-01. *)
Definition civil_from_days (z : Z) : Z * Z * Z :=
  let z := z + 719468 in
  let era := z / 146097 in
  let doe := z - era * 146097 in
  let yoe := (doe - doe / 1460 + doe / 36524 - doe / 146096) / 365 in
  let doy := doe - (365 * yoe + yoe / 4 - yoe / 100) in
  let mp := (5 * doy + 2) / 153 in
  let d := doy - (153 * mp + 2) / 5 + 1 in
  let m := if mp <? 10 then mp + 3 else mp - 9 in
  (yoe + era * 400 + (if m <=? 2 then 1 else 0), m, d).

Definition unit_ns (u : time_unit) : Z :=
  match u with NS => 1 | MS => 1000000 | SEC => 1000000000 end.

(** [pd.to_datetime(n, unit=u, errors="coerce")]: [NaT] outside the
    64-bit range of nanoseconds. *)
Definition to_datetime_unit (n : Z) (u : time_unit) : option Timestamp :=
  let ns := n * unit_ns u in
  if (- 2 ^ 63 <? ns) && (ns <? 2 ^ 63) then
    let '(y, m, d) := civil_from_days (ns / 86400000000000) in
    let r := ns mod 86400000000000 in
    let s := r / 1000000000 in
    let f := r mod 1000000000 in
    Some (mkTimestamp y m d (s / 3600) (s mod 3600 / 60) (s mod 60) (f / 1000) (f mod 1000))
  else None.

Definition parser : DateParser := Build_DateParser to_datetime to_datetime_unit.

End Iso.

(** ** Vocabulary of the statements *)

(** [hour·3600 + minute·60 + second] *)
Definition seconds_since_midnight (dt : Timestamp) : Z :=
  hour dt * 3600 + minute dt * 60 + second dt.

(** The instant [n] seconds after midnight on the calendar date of
    [dt], for [0 ≤ n < 86400], written out field by field; the
    microseconds are zero and the nanoseconds those of [dt]. *)
Definition at_time_of_day (dt : Timestamp) (n : Z) : Timestamp :=
  mkTimestamp (year dt) (month dt) (day dt)
              (n / 3600) (n mod 3600 / 60) (n mod 60) 0 (nanosecond dt).

(** The bucket of a timestamp: what [round_to_nearest_quarter]
    returns on it. *)
Definition quantize (t : Timestamp) : Timestamp :=
  default t (round_to_nearest_quarter (Some t)).

Section Vocabulary.

Context `{DateParser}.

(** A weather record as [prepare_chunk] leaves it, [None] when its
    [valid] is not a date and the record is dropped. *)
Definition prepare_record (r : row) : option row :=
  match to_datetime_coerce (cell r "valid") with
  | VTs t =>
      Some (<["valid_15" := VTs (quantize t)]>
             (<["valid" := VTs t]>
               (<["station" := VStr (normalize_station (cell r "station"))]> r)))
  | _ => None
  end.

(** The index key of a weather record, [None] when it is dropped. *)
Definition record_key (r : row) : option weather_key :=
  match to_datetime_coerce (cell r "valid") with
  | VTs t => Some (normalize_station (cell r "station"), quantize t)
  | _ => None
  end.

(** What one chunk does to the state of the loop when the header has
    the station column. *)
Definition index_step (header : list string)
    (st : gmap weather_key rowdict * option (list string)) (records : list row)
  : gmap weather_key rowdict * option (list string) :=
  let chunk := prepare_chunk (mkFrame header records) in
  foldl (store_group (grouped_columns chunk)) st (groupby_first chunk).

(** The three normalising assignments of [attach_weather] on a row. *)
Definition normalize_row (r : row) : row :=
  let r := <["FL_DATE_TS" := parse_flight_date (cell r "FL_DATE")]> r in
  let r := <["ORIGIN" := VStr (normalize_station (cell r "ORIGIN"))]> r in
  <["DEST" := VStr (normalize_station (cell r "DEST"))]> r.

(** [YEAR] and [MONTH] of a row, derived from its [FL_DATE]. *)
Definition derive_year_month (r : row) : row :=
  <["MONTH" := dt_month (to_datetime_coerce (cell r "FL_DATE"))]>
    (<["YEAR" := dt_year (to_datetime_coerce (cell r "FL_DATE"))]> r).

(** The rounded departure and arrival of a row. *)
Definition round_row (r : row) : row :=
  <["ARR_ROUND" := compute_rounded_dt r "ARR_TIME"]>
    (<["DEP_ROUND" := compute_rounded_dt r "DEP_TIME"]> r).

(** The prefixed columns of a row, empty. *)
Definition empty_weather_fields (weather_cols : list string) (r : row) : row :=
  foldl (λ r wc, <["ARR_" +:+ wc := VNA]> (<["DEP_" +:+ wc := VNA]> r)) r weather_cols.

(** The names of the prefixed columns. *)
Definition prefixed_columns (weather_cols : list string) : list string :=
  weather_cols ≫= (λ wc, ["DEP_" +:+ wc; "ARR_" +:+ wc]).

(** The names of the helper columns that [attach_weather] leaves in
    the frame. *)
Definition helper_columns (derive : bool) : list string :=
  ["FL_DATE_TS"] ++ (if derive then ["YEAR"; "MONTH"] else []) ++ ["DEP_ROUND"; "ARR_ROUND"].

(** Whether [YEAR] and [MONTH] have to be derived. *)
Definition lacks_year_month (cols : list string) : bool :=
  bool_decide ("YEAR" ∉ cols ∨ "MONTH" ∉ cols).

(** A flight row when the legs are rounded: normalised, with [YEAR]
    and [MONTH] derived if they have to be. *)
Definition dated_row (derive : bool) (r : row) : row :=
  let r := normalize_row r in
  if derive then derive_year_month r else r.

(** A flight row as the attach loop finds it. *)
Definition staged_row (weather_cols : list string) (derive : bool) (r : row) : row :=
  empty_weather_fields weather_cols (round_row (dated_row derive r)).

(** A flight row from input to output. *)
Definition enrich_row (weather_map : gmap weather_key rowdict)
    (weather_cols : list string) (derive : bool) (r : row) : row :=
  attach_row weather_map weather_cols
    (empty_weather_fields weather_cols (round_row (dated_row derive r))).

(** The header of the output, from the one of the flights. *)
Definition output_columns (weather_cols cols : list string) : list string :=
  let cols := add_column "FL_DATE_TS" cols in
  let cols := if lacks_year_month cols
              then add_column "MONTH" (add_column "YEAR" cols) else cols in
  let cols := add_column "ARR_ROUND" (add_column "DEP_ROUND" cols) in
  foldl (λ cols wc, add_column ("ARR_" +:+ wc) (add_column ("DEP_" +:+ wc) cols))
        cols weather_cols.

(** The flights frame has what [attach_weather] reads whole columns
    of: [FL_DATE], [ORIGIN] and [DEST], and either [YEAR] and [MONTH]
    or an [FL_DATE] that [pd.to_datetime] accepts in every row. *)
Definition readable (fdf : frame) : Prop :=
  "FL_DATE" ∈ columns fdf ∧ "ORIGIN" ∈ columns fdf ∧ "DEST" ∈ columns fdf ∧
  (("YEAR" ∈ columns fdf ∧ "MONTH" ∈ columns fdf) ∨
   Forall (λ r, ∃ v, to_datetime_strict (cell r "FL_DATE") = Ok v) (rows fdf)).

End Vocabulary.

(** ** Further vocabulary *)

(** Whether a string is made of blanks only. *)
Fixpoint all_space (s : string) : bool :=
  match s with
  | String c r => Str.is_space c && all_space r
  | EmptyString => true
  end.

(** The observation fields of a weather header. *)
Definition field_names (header : list string) : list string :=
  filter (λ c, c ∉ ["station"; "valid"; "valid_15"]) header.

(** The observation that is stored for a grouped row. *)
Definition observation (header : list string) (r : row) : rowdict :=
  (λ c, (c, cell r c)) <$> field_names header.

(** The row of a key in a grouped frame. *)
Fixpoint group_lookup (k : weather_key) (g : list (weather_key * row)) : option row :=
  match g with
  | [] => None
  | (k', acc) :: g' => if decide (k = k') then Some acc else group_lookup k g'
  end.

(** What [GroupBy.first()] makes of the rows of one key, taken in
    order; [None] when there is no row. *)
Definition group_of (rs : list row) : option row :=
  foldl (λ o r, Some (match o with Some acc => merge_first acc r | None => r end)) None rs.

(** The state of the loop: every stored observation has the fields of
    the header, and [cols] is set as soon as something is stored. *)
Definition index_shape (header : list string)
    (st : gmap weather_key rowdict * option (list string)) : Prop :=
  (∀ k w, st.1 !! k = Some w → w.*1 = field_names header) ∧
  (st.2 = None ∧ st.1 = ∅ ∨ st.2 = Some (field_names header) ∧ st.1 ≠ ∅).

(** The two legs of a flight and the columns of each. *)
Inductive leg := Dep | Arr.

Definition leg_time (l : leg) : string :=
  match l with Dep => "DEP_TIME" | Arr => "ARR_TIME" end.
Definition leg_round (l : leg) : string :=
  match l with Dep => "DEP_ROUND" | Arr => "ARR_ROUND" end.
Definition leg_station (l : leg) : string :=
  match l with Dep => "ORIGIN" | Arr => "DEST" end.
Definition leg_prefix (l : leg) : string :=
  match l with Dep => "DEP_" | Arr => "ARR_" end.

(** What a leg receives for a weather field: the field of the
    observation under the key, nothing when the key is not in the
    index. *)
Definition attached (weather_map : gmap weather_key rowdict) (k : weather_key)
    (wc : string) : value :=
  match weather_map !! k with
  | Some w => rowdict_get w wc
  | None => VNA
  end.

(** ** The data of the closed runs *)

(** The weather file of the end-to-end example: one record. *)
Definition example_weather : weather_csv :=
  mkWeather ["station"; "valid"; "temp"]
    [[ {[ "station" := VStr "JFK"; "valid" := VStr "2024-01-01 07:31:00"; "temp" := VInt 5 ]} ]].

(** The flight of the example, a flight without a departure time and
    a flight without origin and destination. *)
Definition example_flight : row :=
  {[ "FL_DATE" := VStr "2024-01-01"; "ORIGIN" := VStr "jfk "; "DEST" := VStr "lax";
     "DEP_TIME" := VStr "0730"; "ARR_TIME" := VStr "1045" ]}.

Definition example_flight_no_dep : row :=
  {[ "FL_DATE" := VStr "2024-01-01"; "ORIGIN" := VStr "JFK"; "DEST" := VStr "BOS";
     "DEP_TIME" := VNaN; "ARR_TIME" := VStr "0845" ]}.

Definition example_flight_no_station : row :=
  {[ "FL_DATE" := VStr "2024-01-01"; "ORIGIN" := VNaN; "DEST" := VNaN;
     "DEP_TIME" := VStr "0730"; "ARR_TIME" := VStr "7:35" ]}.

Definition example_flights : frame :=
  mkFrame ["FL_DATE"; "ORIGIN"; "DEST"; "DEP_TIME"; "ARR_TIME"]
          [example_flight; example_flight_no_dep].

(** * Properties *)

(** ** The definitions at work *)

Example parse_examples :
  parse_time_str (VStr "0730") = Some (7, 30) ∧
  parse_time_str (VStr "7:30") = Some (7, 30) ∧
  parse_time_str (VStr "730") = Some (7, 30) ∧
  parse_time_str (VStr "0730.0") = Some (7, 30) ∧
  parse_time_str (VStr "2400") = Some (0, 0) ∧
  parse_time_str (VStr "2561") = None ∧
  parse_time_str (VStr " 5:3 ") = Some (0, 5) ∧
  parse_time_str (VStr "") = None ∧
  parse_time_str VNaN = None.
Proof. repeat split; reflexivity. Qed.

Example round_examples :
  round_to_nearest_quarter (Some (mkTimestamp 2024 1 1 7 7 29 0 0)) = Some (mkTimestamp 2024 1 1 7 0 0 0 0) ∧
  round_to_nearest_quarter (Some (mkTimestamp 2024 1 1 7 7 30 0 0)) = Some (mkTimestamp 2024 1 1 7 0 0 0 0) ∧
  round_to_nearest_quarter (Some (mkTimestamp 2024 1 1 7 7 31 0 0)) = Some (mkTimestamp 2024 1 1 7 15 0 0 0) ∧
  round_to_nearest_quarter (Some (mkTimestamp 2024 2 29 23 53 0 0 0)) = Some (mkTimestamp 2024 3 1 0 0 0 0 0) ∧
  py_str (VTs (mkTimestamp 2024 2 29 23 53 0 0 0)) = "2024-02-29 23:53:00".
Proof. repeat split; reflexivity. Qed.

Example iso_examples :
  Iso.to_datetime "2024-01-01 07:31:00" = Some (mkTimestamp 2024 1 1 7 31 0 0 0) ∧
  Iso.to_datetime "2024-01-01" = Some (mkTimestamp 2024 1 1 0 0 0 0 0) ∧
  Iso.to_datetime "2024-02-30" = None ∧
  Iso.to_datetime "not a date" = None ∧
  Iso.to_datetime_unit 1704094260 SEC = Some (mkTimestamp 2024 1 1 7 31 0 0 0) ∧
  Iso.to_datetime_unit 20240101 NS = Some (mkTimestamp 1970 1 1 0 0 0 20240 101).
Proof. repeat split; reflexivity. Qed.


(** ** Rounding *)

Lemma py_round_div_cases (n d : Z) :
  0 < d →
  let q := n / d in
  let r := n mod d in
  (py_round_div n d = q ∧ 2 * r ≤ d) ∨ (py_round_div n d = q + 1 ∧ d ≤ 2 * r).
Proof.
  intros Hd q r. unfold py_round_div. fold q r.
  destruct (Z.ltb_spec (2 * r) d); [left; lia|].
  destruct (Z.ltb_spec d (2 * r)); [right; lia|].
  destruct (Z.even q); [left | right]; lia.
Qed.

Lemma py_round_div_nearest (n d : Z) :
  0 < d → 2 * Z.abs (n - d * py_round_div n d) ≤ d.
Proof.
  intros Hd.
  pose proof (Z.div_mod n d ltac:(lia)) as Hn.
  pose proof (Z.mod_pos_bound n d Hd) as Hr.
  destruct (py_round_div_cases n d Hd) as [[-> ?]|[-> ?]]; lia.
Qed.

Lemma py_round_div_tie (n d : Z) :
  0 < d → 2 * (n mod d) = d →
  py_round_div n d = (if Z.even (n / d) then n / d else n / d + 1) ∧
  Z.even (py_round_div n d) = true.
Proof.
  intros Hd Htie. unfold py_round_div.
  rewrite (proj2 (Z.ltb_ge _ _)) by lia.
  rewrite (proj2 (Z.ltb_ge _ _)) by lia.
  destruct (Z.even (n / d)) eqn:He; split; try done.
  rewrite Z.even_add, He. done.
Qed.

Lemma next_day_date_only (dt : Timestamp) (h m s us : Z) :
  let a := next_day (replace_time dt h m s us) in
  let b := next_day dt in
  year a = year b ∧ month a = month b ∧ day a = day b ∧ nanosecond a = nanosecond dt.
Proof.
  unfold next_day, replace_time; simpl.
  destruct (day dt <? days_in_month (year dt) (month dt)); [done|].
  destruct (month dt <? 12); done.
Qed.

(** Adding up to a day to midnight: the same date at that time of
    day, or the next date at 00:00. *)
Lemma add_timedelta_midnight (dt : Timestamp) (n : Z) :
  0 ≤ n ≤ 86400 →
  add_timedelta_seconds (replace_time dt 0 0 0 0) n =
    if n =? 86400 then at_time_of_day (next_day dt) 0 else at_time_of_day dt n.
Proof.
  intros Hn. unfold add_timedelta_seconds.
  replace (hour (replace_time dt 0 0 0 0) * 3600 + minute (replace_time dt 0 0 0 0) * 60 +
           second (replace_time dt 0 0 0 0) + n) with n by (simpl; lia).
  destruct (Z.eqb_spec n 86400) as [->|Hne].
  - change (86400 / 86400) with 1. change (86400 `mod` 86400) with 0.
    change (Z.iter 1 next_day (replace_time dt 0 0 0 0))
      with (next_day (replace_time dt 0 0 0 0)).
    destruct (next_day_date_only dt 0 0 0 0) as (Hy & Hm & Hd & Hns).
    unfold at_time_of_day. rewrite Hy, Hm, Hd.
    assert (nanosecond (next_day dt) = nanosecond dt) as ->.
    { unfold next_day. by repeat case_match. }
    done.
  - rewrite Z.div_small by lia. rewrite Z.mod_small by lia. done.
Qed.

Lemma round_to_nearest_quarter_eq (dt : Timestamp) :
  0 ≤ seconds_since_midnight dt < 86400 →
  let n := 900 * py_round_div (seconds_since_midnight dt) 900 in
  0 ≤ n ≤ 86400 ∧
  round_to_nearest_quarter (Some dt) =
    Some (if n =? 86400 then at_time_of_day (next_day dt) 0 else at_time_of_day dt n).
Proof.
  intros Hs n.
  assert (0 ≤ n ≤ 86400) as Hn.
  { subst n. set (s := seconds_since_midnight dt) in *.
    pose proof (Z.div_mod s 900 ltac:(lia)) as Hdm.
    pose proof (Z.mod_pos_bound s 900 ltac:(lia)) as Hr.
    assert (0 ≤ s / 900 ≤ 95) by lia.
    destruct (py_round_div_cases s 900 ltac:(lia)) as [[-> ?]|[-> ?]]; lia. }
  split; [done|].
  unfold round_to_nearest_quarter. f_equal.
  change (15 * 60) with 900. fold (seconds_since_midnight dt).
  rewrite (Z.mul_comm _ 900). fold n.
  by apply add_timedelta_midnight.
Qed.

Lemma valid_timestamp_seconds (dt : Timestamp) :
  valid_timestamp dt → 0 ≤ seconds_since_midnight dt < 86400.
Proof. unfold valid_timestamp, seconds_since_midnight. lia. Qed.



(** At 07:07:30, halfway between 07:00 and 07:15, the result is the
    lower bucket 07:00, not the higher one. *)
Lemma round_half_up_counterexample :
  seconds_since_midnight (mkTimestamp 2024 1 1 7 7 30 0 0) = 450 * 57 ∧
  round_to_nearest_quarter (Some (mkTimestamp 2024 1 1 7 7 30 0 0)) =
    Some (mkTimestamp 2024 1 1 7 0 0 0 0) ∧
  round_to_nearest_quarter (Some (mkTimestamp 2024 1 1 7 7 30 0 0)) ≠
    Some (mkTimestamp 2024 1 1 7 15 0 0 0).
Proof. split; [reflexivity|]. split; [reflexivity|]. discriminate. Qed.

(** C5, amended: an instant exactly halfway between two quarter-hour
    boundaries goes to the neighbouring boundary that is a whole
    multiple of 30 minutes (ties go to the even quotient): down from
    hh:07:30 and hh:37:30, up from hh:22:30 and hh:52:30, carrying
    into the next hour and day, so that 23:52:30 gives 00:00 of the
    next calendar date. *)
Theorem round_to_nearest_quarter_tie (dt : Timestamp) :
  valid_timestamp dt →
  seconds_since_midnight dt mod 900 = 450 →
  let s := seconds_since_midnight dt in
  let n := 1800 * ((s + 900) / 1800) in
  Z.abs (n - s) = 450 ∧
  round_to_nearest_quarter (Some dt) =
    Some (if n =? 86400 then at_time_of_day (next_day dt) 0 else at_time_of_day dt n) ∧
  (hour dt = 23 → minute dt = 52 → second dt = 30 →
   round_to_nearest_quarter (Some dt) = Some (at_time_of_day (next_day dt) 0)).
Proof.
  intros Hv Htie s n.
  pose proof (valid_timestamp_seconds dt Hv) as Hs. fold s in Hs, Htie.
  destruct (round_to_nearest_quarter_eq dt Hs) as [Hn Heq]. fold s in Hn, Heq.
  destruct (py_round_div_tie s 900 ltac:(lia) ltac:(lia)) as [Hk Heven].
  apply Z.even_spec in Heven as [j Hj].
  pose proof (py_round_div_nearest s 900 ltac:(lia)) as Hnear.
  pose proof (Z.div_mod s 900 ltac:(lia)) as Hdm.
  assert (900 * py_round_div s 900 = n) as Hkn.
  { subst n. rewrite Hj.
    pose proof (Z.div_mod (s + 900) 1800 ltac:(lia)) as Hdm'.
    pose proof (Z.mod_pos_bound (s + 900) 1800 ltac:(lia)) as Hr'.
    assert (py_round_div s 900 = s / 900 ∨ py_round_div s 900 = s / 900 + 1) as Hc
      by (rewrite Hk; destruct (Z.even (s / 900)); auto).
    lia. }
  rewrite Hkn in Heq.
  split.
  { rewrite <- Hkn.
    assert (py_round_div s 900 = s / 900 ∨ py_round_div s 900 = s / 900 + 1) as Hc
      by (rewrite Hk; destruct (Z.even (s / 900)); auto).
    lia. }
  split; [done|].
  intros Hh Hm Hsec. rewrite Heq. subst n s.
  unfold seconds_since_midnight. rewrite Hh, Hm, Hsec. done.
Qed.

Lemma round_to_nearest_quarter_tie_witness :
  round_to_nearest_quarter (Some (mkTimestamp 2024 12 31 23 52 30 0 0)) =
    Some (mkTimestamp 2025 1 1 0 0 0 0 0) ∧
  round_to_nearest_quarter (Some (mkTimestamp 2024 6 30 10 37 30 0 0)) =
    Some (mkTimestamp 2024 6 30 10 30 0 0 0).
Proof.
  assert (valid_timestamp (mkTimestamp 2024 12 31 23 52 30 0 0)) as Hv1.
  { unfold valid_timestamp; simpl. vm_compute. intuition discriminate. }
  assert (valid_timestamp (mkTimestamp 2024 6 30 10 37 30 0 0)) as Hv2.
  { unfold valid_timestamp; simpl. vm_compute. intuition discriminate. }
  split.
  - exact (proj2 (proj2 (round_to_nearest_quarter_tie _ Hv1 eq_refl)) eq_refl eq_refl eq_refl).
  - exact (proj1 (proj2 (round_to_nearest_quarter_tie _ Hv2 eq_refl))).
Defined.

(** ** The flight-time parser *)

Lemma check_hm_range (h m h' m' : Z) :
  check_hm h m = Some (h', m') → 0 ≤ h' ≤ 23 ∧ 0 ≤ m' ≤ 59.
Proof.
  unfold check_hm.
  destruct ((h =? 24) && (m =? 0)); [intros [= <- <-]; lia|].
  destruct ((0 <=? h) && (h <=? 23) && (0 <=? m) && (m <=? 59)) eqn:Hb; [|done].
  intros [= <- <-].
  repeat (apply andb_prop in Hb as [Hb ?]). lia.
Qed.

Lemma check_hm_invalid (h m : Z) :
  ¬ (0 ≤ h ≤ 23 ∧ 0 ≤ m ≤ 59) → (h, m) ≠ (24, 0) → check_hm h m = None.
Proof.
  intros Hr Hs. unfold check_hm.
  destruct ((h =? 24) && (m =? 0)) eqn:Ha.
  { apply andb_prop in Ha as [?%Z.eqb_eq ?%Z.eqb_eq]. congruence. }
  destruct ((0 <=? h) && (h <=? 23) && (0 <=? m) && (m <=? 59)) eqn:Hb; [|done].
  repeat (apply andb_prop in Hb as [Hb ?]). lia.
Qed.

(** [parse_time_str] is the range check applied to the pair read off
    the stripped text. *)
Lemma parse_time_str_unfold (v : value) :
  parse_time_str v =
    if isna v then None
    else raw_hm (Str.strip (py_str v)) ≫= (λ p, check_hm p.1 p.2).
Proof.
  unfold parse_time_str, raw_hm, check_hm.
  destruct (isna v); [done|].
  case_decide as He.
  - rewrite He. done.
  - destruct (Re.search_hhmm _) as [[g1 g2]|]; [done|].
    destruct (Re.search_digits _); done.
Qed.

(** C4: [parse_time_str] gives (7, 30) on "0730", "7:30", "730" and
    "0730.0", (0, 0) on "2400", and no match on "2561", on a missing
    or empty input and whenever the pair it reads is outside hour
    0..23 and minute 0..59 (the pair (24, 0) excepted); being a total
    function it raises nothing, and what it returns is in range. *)
Theorem parse_time_str_spec :
  parse_time_str (VStr "0730") = Some (7, 30) ∧
  parse_time_str (VStr "7:30") = Some (7, 30) ∧
  parse_time_str (VStr "730") = Some (7, 30) ∧
  parse_time_str (VStr "0730.0") = Some (7, 30) ∧
  parse_time_str (VStr "2400") = Some (0, 0) ∧
  parse_time_str (VStr "2561") = None ∧
  (∀ v, isna v = true → parse_time_str v = None) ∧
  (∀ v, Str.strip (py_str v) = "" → parse_time_str v = None) ∧
  (∀ v h m, isna v = false → raw_hm (Str.strip (py_str v)) = Some (h, m) →
     ¬ (0 ≤ h ≤ 23 ∧ 0 ≤ m ≤ 59) → (h, m) ≠ (24, 0) → parse_time_str v = None) ∧
  (∀ v h m, isna v = false → raw_hm (Str.strip (py_str v)) = Some (h, m) →
     (h, m) = (24, 0) → parse_time_str v = Some (0, 0)) ∧
  (∀ v h m, isna v = false → raw_hm (Str.strip (py_str v)) = Some (h, m) →
     0 ≤ h ≤ 23 ∧ 0 ≤ m ≤ 59 → parse_time_str v = Some (h, m)) ∧
  (∀ v h m, parse_time_str v = Some (h, m) → 0 ≤ h ≤ 23 ∧ 0 ≤ m ≤ 59).
Proof.
  do 6 (split; [reflexivity|]).
  split. { intros v Hna. unfold parse_time_str. by rewrite Hna. }
  split. { intros v He. unfold parse_time_str. rewrite He. by destruct (isna v). }
  split.
  { intros v h m Hna Hraw Hr Hs. rewrite parse_time_str_unfold, Hna, Hraw. simpl.
    by apply check_hm_invalid. }
  split.
  { intros v h m Hna Hraw [= -> ->]. by rewrite parse_time_str_unfold, Hna, Hraw. }
  split.
  { intros v h m Hna Hraw Hr. rewrite parse_time_str_unfold, Hna, Hraw. simpl.
    unfold check_hm.
    destruct (Z.eqb_spec h 24); [lia|]. simpl.
    rewrite !(proj2 (Z.leb_le _ _)) by lia. done. }
  intros v h m. rewrite parse_time_str_unfold.
  destruct (isna v); [done|].
  destruct (raw_hm _) as [[h0 m0]|]; [|done]. simpl.
  apply check_hm_range.
Qed.

Lemma parse_time_str_spec_witness :
  parse_time_str (VStr "2561") = None ∧
  parse_time_str (VStr " 24:00 ") = Some (0, 0) ∧
  parse_time_str (VStr "23:59") = Some (23, 59) ∧
  parse_time_str VNaN = None ∧
  parse_time_str (VStr "   ") = None.
Proof.
  destruct parse_time_str_spec as (_ & _ & _ & _ & _ & _ & Hna & Hempty & Hbad & Hsp & Hok & _).
  split. { apply (Hbad (VStr "2561") 25 61); [reflexivity | reflexivity | lia | discriminate]. }
  split. { apply (Hsp (VStr " 24:00 ") 24 0); reflexivity. }
  split. { apply (Hok (VStr "23:59") 23 59); [reflexivity | reflexivity | lia]. }
  split. { apply Hna. reflexivity. }
  apply Hempty. reflexivity.
Defined.

(** ** The special time 24:00 *)

Lemma next_day_other_date (dt : Timestamp) :
  (year (next_day dt), month (next_day dt), day (next_day dt)) ≠ (year dt, month dt, day dt).
Proof.
  unfold next_day.
  destruct (day dt <? days_in_month (year dt) (month dt)); simpl; [intros [=]; lia|].
  destruct (month dt <? 12); simpl; intros [=]; lia.
Qed.

(** C6: a leg whose time reads as the pair (24, 0), "2400" for one,
    and whose base date is there is looked up at 00:00 of that same
    base date; the date is not moved to the next day. *)
Theorem compute_rounded_dt_2400 (r : row) (time_col : string) (base : Timestamp) :
  isna (cell r time_col) = false →
  raw_hm (Str.strip (py_str (cell r time_col))) = Some (24, 0) →
  cell r "FL_DATE_TS" = VTs base →
  parse_time_str (cell r time_col) = Some (0, 0) ∧
  compute_rounded_dt r time_col =
    VTs (mkTimestamp (year base) (month base) (day base) 0 0 0 0 (nanosecond base)) ∧
  compute_rounded_dt r time_col ≠ VTs (at_time_of_day (next_day base) 0).
Proof.
  intros Hna Hraw Hbase.
  assert (parse_time_str (cell r time_col) = Some (0, 0)) as Hp
    by (by rewrite parse_time_str_unfold, Hna, Hraw).
  assert (compute_rounded_dt r time_col =
            VTs (mkTimestamp (year base) (month base) (day base) 0 0 0 0 (nanosecond base))) as Hc.
  { unfold compute_rounded_dt. rewrite Hp, Hbase. simpl. done. }
  split; [done|]. split; [done|].
  rewrite Hc. intros [= Hy Hm Hd _]. unfold at_time_of_day in *.
  apply (next_day_other_date base). congruence.
Qed.

Lemma compute_rounded_dt_2400_witness :
  compute_rounded_dt
    {[ "ARR_TIME" := VStr "2400"; "FL_DATE_TS" := VTs (mkTimestamp 2024 1 31 0 0 0 0 0) ]}
    "ARR_TIME" = VTs (mkTimestamp 2024 1 31 0 0 0 0 0).
Proof.
  exact (proj1 (proj2 (compute_rounded_dt_2400
    {[ "ARR_TIME" := VStr "2400"; "FL_DATE_TS" := VTs (mkTimestamp 2024 1 31 0 0 0 0 0) ]}
    "ARR_TIME" (mkTimestamp 2024 1 31 0 0 0 0 0) eq_refl eq_refl eq_refl))).
Defined.

(** ** Frames *)

Lemma cell_insert_eq (r : row) (c : string) (v : value) : cell (<[c := v]> r) c = v.
Proof. unfold cell. by rewrite lookup_insert_eq. Qed.

Lemma cell_insert_ne (r : row) (c c' : string) (v : value) :
  c ≠ c' → cell (<[c := v]> r) c' = cell r c'.
Proof. intros Hne. unfold cell. by rewrite lookup_insert_ne. Qed.


Lemma elem_of_add_column (c c' : string) (cols : list string) :
  c' ∈ add_column c cols ↔ c' = c ∨ c' ∈ cols.
Proof.
  unfold add_column. case_decide as Hin.
  - split; [auto|]. intros [->|?]; done.
  - rewrite elem_of_app, list_elem_of_singleton. tauto.
Qed.

Lemma add_column_present (c : string) (cols : list string) :
  c ∈ cols → add_column c cols = cols.
Proof. intros Hin. unfold add_column. by rewrite decide_True. Qed.

Lemma add_column_prefix (c : string) (cols : list string) :
  cols `prefix_of` add_column c cols.
Proof. unfold add_column. case_decide; [done|]. by apply prefix_app_r. Qed.

Lemma rows_assign_by (c : string) (f : row → value) (df : frame) :
  rows (assign_by c f df) = (λ r, <[c := f r]> r) <$> rows df.
Proof.
  unfold assign_by, assign; simpl.
  rewrite zip_with_fmap_l. apply zip_with_diag.
Qed.

Lemma columns_assign_by (c : string) (f : row → value) (df : frame) :
  columns (assign_by c f df) = add_column c (columns df).
Proof. done. Qed.

Lemma assign_fmap (c : string) (f : row → value) (df : frame) :
  assign c (f <$> rows df) df =
    mkFrame (add_column c (columns df)) ((λ r, <[c := f r]> r) <$> rows df).
Proof. unfold assign. f_equal. rewrite zip_with_fmap_l. apply zip_with_diag. Qed.

Lemma map_result_ok {A B : Type} (f : A → result B) (g : A → B) (l : list A) :
  Forall (λ a, f a = Ok (g a)) l → map_result f l = Ok (g <$> l).
Proof.
  induction 1 as [|a l Ha _ IH]; [done|].
  simpl. rewrite Ha. simpl. rewrite IH. done.
Qed.

Lemma result_bind_ok {A B : Type} (a : A) (f : A → result B) : Ok a ≫= f = f a.
Proof. done. Qed.

Lemma for_each_ok {S A : Type} (body : S → A → result S) (step : S → A → S)
    (st : S) (l : list A) :
  (∀ st a, a ∈ l → body st a = Ok (step st a)) →
  for_each body st l = Ok (foldl step st l).
Proof.
  revert st. induction l as [|a l IH]; intros st Hb; [done|].
  simpl. rewrite Hb by left. simpl. apply IH.
  intros st' a' Hin. apply Hb. by right.
Qed.

(** ** The weather index *)


Section IndexProperties.

Context `{DateParser}.

Lemma to_datetime_coerce_cases (v : value) :
  (∃ t, to_datetime_coerce v = VTs t) ∨ to_datetime_coerce v = VNaT.
Proof.
  destruct v; simpl; eauto.
  - destruct (to_datetime s); simpl; eauto.
  - destruct (to_datetime_unit n NS); simpl; eauto.
Qed.

Lemma prepare_chunk_eq (header : list string) (records : list row) :
  prepare_chunk (mkFrame header records) =
    mkFrame (add_column "valid_15" (add_column "valid" (add_column "station" header)))
            (omap prepare_record records).
Proof.
  unfold prepare_chunk.
  set (c1 := assign_by "station" _ _).
  set (c2 := assign_by "valid" _ c1).
  set (c3 := dropna "valid" c2).
  unfold assign_by at 1. rewrite assign_fmap. f_equal.
  subst c3 c2 c1. unfold dropna; simpl. rewrite !zip_with_fmap_l, !zip_with_diag.
  induction records as [|r rs IH]; [done|].
  rewrite !fmap_cons, filter_cons. simpl. unfold prepare_record.
  rewrite cell_insert_eq, cell_insert_ne by done.
  destruct (to_datetime_coerce_cases (cell r "valid")) as [[t Ht]| Ht]; rewrite Ht; simpl.
  - rewrite cell_insert_eq. simpl. f_equal. apply IH.
  - apply IH.
Qed.

Lemma prepare_record_key (r r' : row) :
  prepare_record r = Some r' → group_key r' = record_key r.
Proof.
  unfold prepare_record, record_key.
  destruct (to_datetime_coerce (cell r "valid")); try done.
  intros [= <-]. unfold group_key.
  rewrite cell_insert_eq, !cell_insert_ne, cell_insert_eq by done. done.
Qed.

Lemma prepare_record_is_Some (r : row) :
  is_Some (prepare_record r) ↔ is_Some (record_key r).
Proof.
  unfold prepare_record, record_key.
  destruct (to_datetime_coerce (cell r "valid")); split; intros [? ?]; done || eauto.
Qed.

Lemma prepare_record_cell (r r' : row) (c : string) :
  prepare_record r = Some r' →
  c ∉ ["station"; "valid"; "valid_15"] →
  cell r' c = cell r c.
Proof.
  unfold prepare_record.
  destruct (to_datetime_coerce (cell r "valid")); try done.
  intros [= <-] Hc.
  rewrite !cell_insert_ne; [done|..]; intros <-; apply Hc; set_solver.
Qed.

Lemma elem_of_group_add_keys (k k' : weather_key) (r : row) (g : list (weather_key * row)) :
  k' ∈ (group_add k r g).*1 ↔ k' = k ∨ k' ∈ g.*1.
Proof.
  induction g as [|[k0 acc] g IH]; simpl.
  - rewrite list_elem_of_singleton, elem_of_nil. tauto.
  - case_decide as Hk; simpl.
    + subst k0. rewrite !elem_of_cons. tauto.
    + rewrite !elem_of_cons, IH. tauto.
Qed.




Lemma index_chunk_ok (header : list string) (records : list row)
    (st : gmap weather_key rowdict * option (list string)) :
  "station" ∈ header →
  index_chunk st (mkFrame header records) = Ok (index_step header st records).
Proof. intros Hs. unfold index_chunk; simpl. by rewrite decide_True. Qed.

Lemma build_weather_map_ok (header : list string) (chunks : list (list row)) :
  "valid" ∈ header → "station" ∈ header →
  build_weather_map (mkWeather header chunks) =
    Ok ((foldl (index_step header) (∅, None) chunks).1,
        default [] (foldl (index_step header) (∅, None) chunks).2).
Proof.
  intros Hv Hs. unfold build_weather_map, read_weather_csv; simpl.
  rewrite decide_True by done. simpl.
  rewrite (for_each_ok _ (λ st chunk, index_step header st (rows chunk))).
  - simpl. by rewrite foldl_fmap.
  - intros st a (rs & -> & _)%list_elem_of_fmap. by apply index_chunk_ok.
Qed.



Lemma for_each_raise {S A : Type} (body : S → A → result S) (e : exn) (st : S) (l : list A) :
  (∀ st a, a ∈ l → body st a = Raise e) → l ≠ [] → for_each body st l = Raise e.
Proof.
  destruct l as [|a l]; [done|]. intros Hb _. simpl. rewrite Hb by left. done.
Qed.




Lemma build_weather_map_missing_valid (header : list string) (chunks : list (list row)) :
  "valid" ∉ header →
  build_weather_map (mkWeather header chunks) =
    Raise (ValueError "Missing column provided to 'parse_dates': 'valid'").
Proof.
  intros Hv. unfold build_weather_map, read_weather_csv; simpl.
  by rewrite decide_False.
Qed.

Lemma build_weather_map_missing_station (header : list string) (chunks : list (list row)) :
  "valid" ∈ header → "station" ∉ header → chunks ≠ [] →
  build_weather_map (mkWeather header chunks) =
    Raise (KeyError "weather file missing 'station' column").
Proof.
  intros Hv Hs Hne. unfold build_weather_map, read_weather_csv; simpl.
  rewrite decide_True by done. simpl.
  rewrite (for_each_raise _ (KeyError "weather file missing 'station' column")); [done| |].
  - intros st a (rs & -> & _)%list_elem_of_fmap. unfold index_chunk; simpl.
    by rewrite decide_False.
  - by destruct chunks.
Qed.



End IndexProperties.


(** ** First record or last: the index across and within chunks *)

(** C2, on the code: two records of station JFK in the bucket 07:30
    of 2024-01-01, the earlier with [temp = 5] and the later with
    [temp = 9], in two chunks: [mapping[key] = rowdict] overwrites,
    and the index ends with the later one, not the earlier. *)
Lemma build_weather_map_later_chunk_wins :
  ∃ mapping,
    build_weather_map (H := Iso.parser)
      (mkWeather ["station"; "valid"; "temp"]
         [ [ {[ "station" := VStr "JFK"; "valid" := VStr "2024-01-01 07:31:00"; "temp" := VInt 5 ]} ];
           [ {[ "station" := VStr "JFK"; "valid" := VStr "2024-01-01 07:29:00"; "temp" := VInt 9 ]} ] ]) =
      Ok (mapping, ["temp"]) ∧
    mapping !! ("JFK", mkTimestamp 2024 1 1 7 30 0 0 0) = Some [("temp", VInt 9)].
Proof.
  eexists. split.
  - rewrite build_weather_map_ok by compute_done. reflexivity.
  - vm_compute. reflexivity.
Qed.

(** Two such records in one chunk, the earlier with no [temp]: the
    stored observation takes [temp] from the later record and [hum]
    from the earlier one. *)
Lemma build_weather_map_first_skips_null :
  ∃ mapping,
    build_weather_map (H := Iso.parser)
      (mkWeather ["station"; "valid"; "temp"; "hum"]
         [ [ {[ "station" := VStr "JFK"; "valid" := VStr "2024-01-01 07:31:00";
                "temp" := VNaN; "hum" := VInt 1 ]};
             {[ "station" := VStr "JFK"; "valid" := VStr "2024-01-01 07:29:00";
                "temp" := VInt 9; "hum" := VInt 2 ]} ] ]) =
      Ok (mapping, ["temp"; "hum"]) ∧
    mapping !! ("JFK", mkTimestamp 2024 1 1 7 30 0 0 0) =
      Some [("temp", VInt 9); ("hum", VInt 1)].
Proof.
  eexists. split.
  - rewrite build_weather_map_ok by compute_done. reflexivity.
  - vm_compute. reflexivity.
Qed.

(** ** The join, row by row *)

Section JoinProperties.

Context `{DateParser}.

Lemma to_datetime_strict_coerce (v v' : value) :
  to_datetime_strict v = Ok v' → v' = to_datetime_coerce v.
Proof.
  destruct v; simpl; try (by intros [= <-]).
  - destruct (to_datetime s); [by intros [= <-]|done].
  - destruct (to_datetime_unit n NS); [by intros [= <-]|done].
Qed.

Lemma add_year_month_ok (fdf : frame) :
  (("YEAR" ∈ columns fdf ∧ "MONTH" ∈ columns fdf) ∨
   Forall (λ r, ∃ v, to_datetime_strict (cell r "FL_DATE") = Ok v) (rows fdf)) →
  add_year_month fdf =
    Ok (mkFrame
          (if lacks_year_month (columns fdf)
           then add_column "MONTH" (add_column "YEAR" (columns fdf)) else columns fdf)
          ((if lacks_year_month (columns fdf) then derive_year_month else id) <$> rows fdf)).
Proof.
  intros Hd. unfold add_year_month, lacks_year_month.
  destruct (decide ("YEAR" ∉ columns fdf ∨ "MONTH" ∉ columns fdf)) as [Hl|Hl].
  - rewrite bool_decide_eq_true_2 by done.
    destruct Hd as [[Hy Hm]|Hd]; [tauto|].
    assert (Forall (λ r, to_datetime_strict (cell r "FL_DATE")
                         = Ok (to_datetime_coerce (cell r "FL_DATE"))) (rows fdf)) as Hc.
    { eapply Forall_impl; [exact Hd|]. intros r [v Hv]. simpl.
      by rewrite Hv, (to_datetime_strict_coerce _ _ Hv). }
    rewrite (map_result_ok _ _ _ Hc), result_bind_ok.
    rewrite <- list_fmap_compose, assign_fmap.
    set (fdf' := mkFrame _ _).
    rewrite (map_result_ok _ (λ r, to_datetime_coerce (cell r "FL_DATE"))).
    + rewrite result_bind_ok, <- list_fmap_compose, assign_fmap. subst fdf'; simpl.
      rewrite <- list_fmap_compose. do 2 f_equal.
      apply list_fmap_ext. intros i r _. simpl. unfold derive_year_month.
      by rewrite cell_insert_ne.
    + subst fdf'; simpl. apply Forall_fmap.
      eapply Forall_impl; [exact Hc|]. intros r Hr. simpl.
      by rewrite cell_insert_ne.
  - rewrite bool_decide_eq_false_2 by done. by rewrite list_fmap_id; destruct fdf.
Qed.

Lemma prepare_weather_columns_eq (weather_cols : list string) (fdf : frame) :
  prepare_weather_columns weather_cols fdf =
    mkFrame (foldl (λ cols wc, add_column ("ARR_" +:+ wc) (add_column ("DEP_" +:+ wc) cols))
                   (columns fdf) weather_cols)
            (empty_weather_fields weather_cols <$> rows fdf).
Proof.
  revert fdf. induction weather_cols as [|wc l IH]; intros fdf.
  - simpl. rewrite list_fmap_id. by destruct fdf.
  - change (prepare_weather_columns (wc :: l) fdf)
      with (prepare_weather_columns l
              (assign_by ("ARR_" +:+ wc) (λ _, VNA) (assign_by ("DEP_" +:+ wc) (λ _, VNA) fdf))).
    rewrite IH. rewrite !columns_assign_by, !rows_assign_by, <- !list_fmap_compose.
    done.
Qed.

Lemma require_column_ok (c : string) (df : frame) :
  c ∈ columns df → require_column c df = Ok ().
Proof. intros Hc. unfold require_column. by rewrite decide_True. Qed.

(** The whole of [attach_weather] on a readable flights frame: the
    header is extended and every row goes through [enrich_row]. *)
Lemma attach_weather_ok (w : weather_csv) (fdf : frame)
    (weather_map : gmap weather_key rowdict) (weather_cols : list string) :
  build_weather_map w = Ok (weather_map, weather_cols) →
  readable fdf →
  attach_weather w fdf =
    Ok (mkFrame (output_columns weather_cols (columns fdf))
                (enrich_row weather_map weather_cols
                   (lacks_year_month (add_column "FL_DATE_TS" (columns fdf))) <$> rows fdf)).
Proof.
  intros Hb (Hfl & Ho & Hd & Hym). unfold attach_weather.
  rewrite Hb, result_bind_ok. cbv beta iota.
  rewrite (require_column_ok "FL_DATE") by done. rewrite result_bind_ok.
  rewrite (require_column_ok "ORIGIN")
    by (rewrite columns_assign_by, elem_of_add_column; auto).
  rewrite result_bind_ok.
  rewrite (require_column_ok "DEST")
    by (rewrite !columns_assign_by, !elem_of_add_column; auto).
  rewrite result_bind_ok.
  set (fdf3 := assign_by "DEST" _ _).
  assert (columns fdf3 = add_column "FL_DATE_TS" (columns fdf)) as Hcols.
  { subst fdf3. rewrite !columns_assign_by.
    rewrite (add_column_present "ORIGIN") by (rewrite elem_of_add_column; auto).
    by rewrite (add_column_present "DEST") by (rewrite elem_of_add_column; auto). }
  assert (rows fdf3 = normalize_row <$> rows fdf) as Hrows.
  { subst fdf3. rewrite !rows_assign_by, <- !list_fmap_compose. done. }
  rewrite add_year_month_ok.
  2:{ rewrite Hcols, Hrows, !elem_of_add_column.
      destruct Hym as [[? ?]|Hf]; [left; auto|right].
      apply Forall_fmap. eapply Forall_impl; [exact Hf|].
      intros r [v Hv]. exists v. simpl. unfold normalize_row.
      by rewrite !cell_insert_ne. }
  rewrite result_bind_ok. rewrite Hcols, Hrows.
  set (derive := lacks_year_month _).
  set (fdf4 := mkFrame (if derive then _ else _) _).
  rewrite (assign_fmap "DEP_ROUND").
  set (fdf5 := mkFrame (add_column "DEP_ROUND" _) _).
  f_equal. rewrite prepare_weather_columns_eq. simpl.
  unfold output_columns. fold derive. f_equal.
  subst fdf5 fdf4; simpl.
  rewrite zip_with_fmap_l, zip_with_fmap_r, zip_with_diag.
  rewrite <- !list_fmap_compose.
  apply list_fmap_ext. intros i r _. simpl. unfold enrich_row.
  by destruct derive.
Qed.

Lemma dep_ne_arr (a b : string) : "DEP_" +:+ a ≠ "ARR_" +:+ b.
Proof. unfold String.app. simpl. intros [=]. Qed.

Lemma elem_of_prefixed_columns (weather_cols : list string) (c : string) :
  c ∈ prefixed_columns weather_cols ↔
  ∃ wc, wc ∈ weather_cols ∧ (c = "DEP_" +:+ wc ∨ c = "ARR_" +:+ wc).
Proof.
  unfold prefixed_columns. rewrite list_elem_of_bind.
  split; intros (wc & H1 & H2); exists wc.
  - rewrite !elem_of_cons, elem_of_nil in H1. tauto.
  - split; [|tauto]. rewrite !elem_of_cons, elem_of_nil. tauto.
Qed.

Lemma empty_weather_fields_snoc (l : list string) (wc : string) (r : row) :
  empty_weather_fields (l ++ [wc]) r =
    <["ARR_" +:+ wc := VNA]> (<["DEP_" +:+ wc := VNA]> (empty_weather_fields l r)).
Proof. unfold empty_weather_fields. by rewrite foldl_app. Qed.

Lemma empty_weather_fields_lookup (weather_cols : list string) (r : row) (c : string) :
  empty_weather_fields weather_cols r !! c =
    if decide (c ∈ prefixed_columns weather_cols) then Some VNA else r !! c.
Proof.
  induction weather_cols as [|wc l IH] using rev_ind.
  - case_decide as Hin; [|done]. by apply elem_of_nil in Hin.
  - rewrite empty_weather_fields_snoc.
    assert (c ∈ prefixed_columns (l ++ [wc]) ↔
            c ∈ prefixed_columns l ∨ c = "DEP_" +:+ wc ∨ c = "ARR_" +:+ wc) as Hmem.
    { rewrite !elem_of_prefixed_columns. split.
      - intros (x & [Hx| ->%list_elem_of_singleton]%elem_of_app & Hc); eauto.
      - intros [(x & Hx & Hc)|Hc]; [exists x|exists wc];
          (split; [rewrite elem_of_app, list_elem_of_singleton; auto|done]). }
    destruct (decide (c = "ARR_" +:+ wc)) as [->|Ha].
    { rewrite lookup_insert_eq, decide_True; [done|]. apply Hmem. auto. }
    rewrite lookup_insert_ne by done.
    destruct (decide (c = "DEP_" +:+ wc)) as [->|Hd].
    { rewrite lookup_insert_eq, decide_True; [done|]. apply Hmem. auto. }
    rewrite lookup_insert_ne by done. rewrite IH.
    destruct (decide (c ∈ prefixed_columns l)) as [Hin|Hin].
    + rewrite decide_True; [done|]. apply Hmem. auto.
    + rewrite decide_False; [done|]. rewrite Hmem. tauto.
Qed.

Lemma write_fields_snoc (pre : string) (l : list string) (wc : string)
    (w : rowdict) (r : row) :
  write_fields pre (l ++ [wc]) w r =
    <[pre +:+ wc := rowdict_get w wc]> (write_fields pre l w r).
Proof. unfold write_fields. by rewrite foldl_app. Qed.

Lemma write_fields_lookup_other (pre : string) (weather_cols : list string)
    (w : rowdict) (r : row) (c : string) :
  (∀ wc, wc ∈ weather_cols → c ≠ pre +:+ wc) →
  write_fields pre weather_cols w r !! c = r !! c.
Proof.
  induction weather_cols as [|wc l IH] using rev_ind; intros Hc; [done|].
  rewrite write_fields_snoc, lookup_insert_ne.
  - apply IH. intros x Hx. apply Hc. rewrite elem_of_app. auto.
  - intros Heq. apply (Hc wc); [|done]. rewrite elem_of_app, list_elem_of_singleton. auto.
Qed.

Lemma write_fields_lookup_in (pre : string) (weather_cols : list string)
    (w : rowdict) (r : row) (wc : string) :
  wc ∈ weather_cols →
  write_fields pre weather_cols w r !! (pre +:+ wc) = Some (rowdict_get w wc).
Proof.
  induction weather_cols as [|x l IH] using rev_ind; intros Hin.
  - by apply elem_of_nil in Hin.
  - rewrite write_fields_snoc.
    destruct (decide (x = wc)) as [->|Hne]; [by rewrite lookup_insert_eq|].
    rewrite lookup_insert_ne.
    + apply IH. apply elem_of_app in Hin as [?|Hin]; [done|].
      apply list_elem_of_singleton in Hin. congruence.
    + intros Heq. apply Hne. by apply (inj (String.app pre)).
Qed.

(** A literal name that starts with neither prefix is not the name of
    a prefixed column. *)
Ltac not_prefixed :=
  let Hc := fresh "Hc" in
  intros (? & _ & [Hc|Hc])%elem_of_prefixed_columns;
  unfold String.app in Hc; simpl in Hc; discriminate Hc.

Lemma dep_round_prefixed (weather_cols : list string) :
  "DEP_ROUND" ∈ prefixed_columns weather_cols ↔ "ROUND" ∈ weather_cols.
Proof.
  rewrite elem_of_prefixed_columns. split.
  - intros (wc & Hwc & [Hc|Hc]); unfold String.app in Hc; simpl in Hc; [|discriminate].
    by injection Hc as <-.
  - intros Hin. exists "ROUND". auto.
Qed.

Lemma arr_round_prefixed (weather_cols : list string) :
  "ARR_ROUND" ∈ prefixed_columns weather_cols ↔ "ROUND" ∈ weather_cols.
Proof.
  rewrite elem_of_prefixed_columns. split.
  - intros (wc & Hwc & [Hc|Hc]); unfold String.app in Hc; simpl in Hc; [discriminate|].
    by injection Hc as <-.
  - intros Hin. exists "ROUND". auto.
Qed.

Section AttachRow.

Context (weather_map : gmap weather_key rowdict) (weather_cols : list string).

Lemma attach_row_lookup_other (r : row) (c : string) :
  c ∉ prefixed_columns weather_cols →
  attach_row weather_map weather_cols r !! c = r !! c.
Proof.
  intros Hc. unfold attach_row.
  assert (∀ pre, (pre = "DEP_" ∨ pre = "ARR_") → ∀ wc, wc ∈ weather_cols → c ≠ pre +:+ wc) as Hne.
  { intros pre Hpre wc Hwc ->. apply Hc, elem_of_prefixed_columns.
    exists wc. destruct Hpre as [-> | ->]; auto. }
  destruct (leg_key (cell r "DEST") _ ≫= _); destruct (leg_key (cell r "ORIGIN") _ ≫= _);
    rewrite ?write_fields_lookup_other; auto.
Qed.

Lemma attach_row_dep_some (r : row) (w : rowdict) (wc : string) :
  leg_key (cell r "ORIGIN") (cell r "DEP_ROUND") ≫= (weather_map !!.) = Some w →
  wc ∈ weather_cols →
  attach_row weather_map weather_cols r !! ("DEP_" +:+ wc) = Some (rowdict_get w wc).
Proof.
  intros Hk Hwc. unfold attach_row. rewrite Hk.
  destruct (leg_key (cell r "DEST") _ ≫= _).
  - rewrite write_fields_lookup_other by (intros; apply dep_ne_arr).
    by apply write_fields_lookup_in.
  - by apply write_fields_lookup_in.
Qed.

Lemma attach_row_dep_none (r : row) (wc : string) :
  leg_key (cell r "ORIGIN") (cell r "DEP_ROUND") ≫= (weather_map !!.) = None →
  attach_row weather_map weather_cols r !! ("DEP_" +:+ wc) = r !! ("DEP_" +:+ wc).
Proof.
  intros Hk. unfold attach_row. rewrite Hk.
  destruct (leg_key (cell r "DEST") _ ≫= _); [|done].
  by rewrite write_fields_lookup_other by (intros; apply dep_ne_arr).
Qed.

Lemma attach_row_arr_some (r : row) (w : rowdict) (wc : string) :
  leg_key (cell r "DEST") (cell r "ARR_ROUND") ≫= (weather_map !!.) = Some w →
  wc ∈ weather_cols →
  attach_row weather_map weather_cols r !! ("ARR_" +:+ wc) = Some (rowdict_get w wc).
Proof.
  intros Hk Hwc. unfold attach_row. rewrite Hk. by apply write_fields_lookup_in.
Qed.

Lemma attach_row_arr_none (r : row) (wc : string) :
  leg_key (cell r "DEST") (cell r "ARR_ROUND") ≫= (weather_map !!.) = None →
  attach_row weather_map weather_cols r !! ("ARR_" +:+ wc) = r !! ("ARR_" +:+ wc).
Proof.
  intros Hk. unfold attach_row. rewrite Hk.
  destruct (leg_key (cell r "ORIGIN") _ ≫= _); [|done].
  rewrite write_fields_lookup_other; [done|].
  intros x _ Heq. by apply (dep_ne_arr x wc).
Qed.


End AttachRow.

Section StagedRow.

Context (weather_cols : list string) (derive : bool) (r : row).

Lemma enrich_row_staged (weather_map : gmap weather_key rowdict) :
  enrich_row weather_map weather_cols derive r =
    attach_row weather_map weather_cols (staged_row weather_cols derive r).
Proof. done. Qed.

Lemma normalized_cell_origin : cell (dated_row derive r) "ORIGIN" = VStr (normalize_station (cell r "ORIGIN")).
Proof.
  unfold dated_row, derive_year_month, normalize_row.
  destruct derive; rewrite ?cell_insert_ne by done;
    by rewrite cell_insert_eq, cell_insert_ne.
Qed.

Lemma normalized_cell_dest : cell (dated_row derive r) "DEST" = VStr (normalize_station (cell r "DEST")).
Proof.
  unfold dated_row, derive_year_month, normalize_row.
  destruct derive; rewrite ?cell_insert_ne by done;
    by rewrite cell_insert_eq, !cell_insert_ne.
Qed.

Lemma normalized_cell_date : cell (dated_row derive r) "FL_DATE_TS" = parse_flight_date (cell r "FL_DATE").
Proof.
  unfold dated_row, derive_year_month, normalize_row.
  destruct derive; rewrite ?cell_insert_ne by done; by rewrite cell_insert_eq.
Qed.

Lemma normalized_cell_other (c : string) :
  c ∉ ["FL_DATE_TS"; "ORIGIN"; "DEST"; "YEAR"; "MONTH"] → cell (dated_row derive r) c = cell r c.
Proof.
  intros Hc. unfold dated_row, derive_year_month, normalize_row.
  destruct derive; rewrite !cell_insert_ne; try done;
    intros <-; apply Hc; set_solver.
Qed.

Lemma staged_row_lookup_prefixed (c : string) :
  c ∈ prefixed_columns weather_cols →
  staged_row weather_cols derive r !! c = Some VNA.
Proof.
  intros Hc. unfold staged_row. by rewrite empty_weather_fields_lookup, decide_True.
Qed.

Lemma staged_row_cell_plain (c : string) :
  c ∉ prefixed_columns weather_cols → c ≠ "DEP_ROUND" → c ≠ "ARR_ROUND" →
  cell (staged_row weather_cols derive r) c = cell (dated_row derive r) c.
Proof.
  intros Hc Hd Ha. unfold cell, staged_row.
  rewrite empty_weather_fields_lookup, decide_False by done.
  unfold round_row. by rewrite !lookup_insert_ne.
Qed.

Lemma staged_row_cell_origin :
  cell (staged_row weather_cols derive r) "ORIGIN" = VStr (normalize_station (cell r "ORIGIN")).
Proof.
  rewrite staged_row_cell_plain; [apply normalized_cell_origin|not_prefixed|done..].
Qed.

Lemma staged_row_cell_dest :
  cell (staged_row weather_cols derive r) "DEST" = VStr (normalize_station (cell r "DEST")).
Proof.
  rewrite staged_row_cell_plain; [apply normalized_cell_dest|not_prefixed|done..].
Qed.

Lemma staged_row_cell_dep_round :
  cell (staged_row weather_cols derive r) "DEP_ROUND" =
    if decide ("ROUND" ∈ weather_cols) then VNA else compute_rounded_dt (dated_row derive r) "DEP_TIME".
Proof.
  unfold cell, staged_row. rewrite empty_weather_fields_lookup.
  case_decide as Hr; apply dep_round_prefixed in Hr || rewrite dep_round_prefixed in Hr.
  - by rewrite decide_True.
  - rewrite decide_False by done. unfold round_row.
    by rewrite lookup_insert_ne, lookup_insert_eq.
Qed.

Lemma staged_row_cell_arr_round :
  cell (staged_row weather_cols derive r) "ARR_ROUND" =
    if decide ("ROUND" ∈ weather_cols) then VNA else compute_rounded_dt (dated_row derive r) "ARR_TIME".
Proof.
  unfold cell, staged_row. rewrite empty_weather_fields_lookup.
  case_decide as Hr; apply arr_round_prefixed in Hr || rewrite arr_round_prefixed in Hr.
  - by rewrite decide_True.
  - rewrite decide_False by done. unfold round_row.
    by rewrite lookup_insert_eq.
Qed.


Lemma compute_rounded_dt_dated (time_col : string) (h m : Z) (d : Timestamp) :
  time_col ∉ ["FL_DATE_TS"; "ORIGIN"; "DEST"; "YEAR"; "MONTH"] →
  parse_time_str (cell r time_col) = Some (h, m) →
  parse_flight_date (cell r "FL_DATE") = VTs d →
  compute_rounded_dt (dated_row derive r) time_col = VTs (quantize (replace_time d h m 0 0)).
Proof.
  intros Htc Hp Hd. unfold compute_rounded_dt.
  by rewrite (normalized_cell_other _ Htc), Hp, normalized_cell_date, Hd.
Qed.

End StagedRow.

Lemma lacks_year_month_date_ts (cols : list string) :
  lacks_year_month (add_column "FL_DATE_TS" cols) = lacks_year_month cols.
Proof.
  unfold lacks_year_month. apply bool_decide_ext.
  rewrite !elem_of_add_column.
  split; (intros [Hy|Hm]; [left|right]); intros Hin; [apply Hy|apply Hm|apply Hy|apply Hm]; auto;
    by destruct Hin as [?|?].
Qed.

Lemma elem_of_prefixed_fold (weather_cols cols : list string) (c : string) :
  c ∈ foldl (λ cols wc, add_column ("ARR_" +:+ wc) (add_column ("DEP_" +:+ wc) cols))
            cols weather_cols
  ↔ c ∈ cols ∨ c ∈ prefixed_columns weather_cols.
Proof.
  revert cols. induction weather_cols as [|wc l IH]; intros cols; simpl.
  - unfold prefixed_columns; simpl. rewrite elem_of_nil. tauto.
  - rewrite IH, !elem_of_add_column.
    change (prefixed_columns (wc :: l))
      with (["DEP_" +:+ wc; "ARR_" +:+ wc] ++ prefixed_columns l).
    rewrite !elem_of_cons. tauto.
Qed.

Lemma prefixed_fold_prefix (weather_cols cols : list string) :
  cols `prefix_of`
    foldl (λ cols wc, add_column ("ARR_" +:+ wc) (add_column ("DEP_" +:+ wc) cols))
          cols weather_cols.
Proof.
  revert cols. induction weather_cols as [|wc l IH]; intros cols; simpl; [done|].
  etrans; [|apply IH]. etrans; apply add_column_prefix.
Qed.

Lemma elem_of_output_columns (weather_cols cols : list string) (c : string) :
  c ∈ output_columns weather_cols cols ↔
  c ∈ cols ∨ c ∈ helper_columns (lacks_year_month cols) ∨ c ∈ prefixed_columns weather_cols.
Proof.
  unfold output_columns, helper_columns.
  rewrite elem_of_prefixed_fold, lacks_year_month_date_ts.
  destruct (lacks_year_month cols); simpl;
    rewrite !elem_of_add_column, !elem_of_cons, ?elem_of_nil; tauto.
Qed.

Lemma output_columns_prefix (weather_cols cols : list string) :
  cols `prefix_of` output_columns weather_cols cols.
Proof.
  unfold output_columns. etrans; [|apply prefixed_fold_prefix].
  etrans; [apply (add_column_prefix "FL_DATE_TS")|].
  etrans; [|apply add_column_prefix]. etrans; [|apply add_column_prefix].
  destruct (lacks_year_month _); [|done].
  etrans; apply add_column_prefix.
Qed.



Lemma staged_row_lookup_kept (weather_cols : list string) (derive : bool) (r : row) (c : string) :
  c ∉ ["ORIGIN"; "DEST"] → c ∉ helper_columns derive → c ∉ prefixed_columns weather_cols →
  staged_row weather_cols derive r !! c = r !! c.
Proof.
  intros Hod Hh Hp. unfold staged_row.
  rewrite empty_weather_fields_lookup, decide_False by done.
  unfold helper_columns in Hh. rewrite !elem_of_app, !elem_of_cons, elem_of_nil in Hh.
  rewrite !elem_of_cons, elem_of_nil in Hod.
  unfold round_row. rewrite !lookup_insert_ne by (intros <-; tauto).
  assert (normalize_row r !! c = r !! c) as Hn.
  { unfold normalize_row. by rewrite !lookup_insert_ne by (intros <-; tauto). }
  unfold dated_row. destruct derive; [|done].
  unfold derive_year_month. rewrite !lookup_insert_ne; [done|..]; intros <-; apply Hh;
    rewrite !elem_of_cons; tauto.
Qed.

(** C9, amended: the output header is the flights header followed by
    the columns the run adds and that were not there: the helper
    columns [FL_DATE_TS], [YEAR] and [MONTH] (when the input lacks
    either), [DEP_ROUND] and [ARR_ROUND], and [DEP_<field>] and
    [ARR_<field>] for every weather field; [ORIGIN] and [DEST] are
    written back stripped and upper-cased, and every other cell of a
    flight column whose name is not the name of an added column is
    written back unchanged. *)
Theorem attach_weather_frame (w : weather_csv) (fdf : frame)
    (weather_map : gmap weather_key rowdict) (weather_cols : list string) :
  build_weather_map w = Ok (weather_map, weather_cols) →
  readable fdf →
  ∃ out,
    attach_weather w fdf = Ok out ∧
    columns fdf `prefix_of` columns out ∧
    (∀ c, c ∈ columns out ↔
          c ∈ columns fdf ∨ c ∈ helper_columns (lacks_year_month (columns fdf)) ∨
          c ∈ prefixed_columns weather_cols) ∧
    (∀ i r, rows fdf !! i = Some r →
       ∃ r', rows out !! i = Some r' ∧
         cell r' "ORIGIN" = VStr (normalize_station (cell r "ORIGIN")) ∧
         cell r' "DEST" = VStr (normalize_station (cell r "DEST")) ∧
         ∀ c, c ∉ ["ORIGIN"; "DEST"] →
              c ∉ helper_columns (lacks_year_month (columns fdf)) →
              c ∉ prefixed_columns weather_cols →
              r' !! c = r !! c).
Proof.
  intros Hb Hr. eexists. split; [by apply attach_weather_ok|]. simpl.
  split; [apply output_columns_prefix|].
  split; [apply elem_of_output_columns|].
  intros i r Hi. eexists. split; [by rewrite list_lookup_fmap, Hi|].
  rewrite lacks_year_month_date_ts, enrich_row_staged.
  split; [|split].
  - unfold cell at 1. rewrite attach_row_lookup_other by not_prefixed.
    apply staged_row_cell_origin.
  - unfold cell at 1. rewrite attach_row_lookup_other by not_prefixed.
    apply staged_row_cell_dest.
  - intros c Hod Hh Hp. rewrite attach_row_lookup_other by done.
    by apply staged_row_lookup_kept.
Qed.

(** ** One weather record *)

(** The index of a weather file that holds one record with the one
    field [temp]. *)
Lemma build_weather_map_single (sv vv tv : value) (t : Timestamp) :
  to_datetime_coerce vv = VTs t →
  build_weather_map
    (mkWeather ["station"; "valid"; "temp"]
       [[ {[ "station" := sv; "valid" := vv; "temp" := tv ]} ]]) =
    Ok ({[ (normalize_station sv, quantize t) := [("temp", tv)] ]}, ["temp"]).
Proof.
  intros Ht. rewrite build_weather_map_ok by compute_done.
  simpl. unfold index_step. rewrite prepare_chunk_eq.
  set (r0 := ({[ "station" := sv; "valid" := vv; "temp" := tv ]} : row)).
  assert (cell r0 "station" = sv) as Hs by done.
  assert (cell r0 "valid" = vv) as Hv by done.
  assert (cell r0 "temp" = tv) as Htv by done.
  assert (prepare_record r0 =
            Some (<["valid_15" := VTs (quantize t)]>
                    (<["valid" := VTs t]>
                       (<["station" := VStr (normalize_station sv)]> r0)))) as Hp.
  { unfold prepare_record. by rewrite Hv, Ht, Hs. }
  simpl. rewrite Hp.
  unfold groupby_first. simpl.
  rewrite (prepare_record_key _ _ Hp). unfold record_key. rewrite Hv, Ht, Hs. simpl.
  rewrite (prepare_record_cell _ _ "temp" Hp) by compute_done.
  rewrite Htv. by rewrite insert_empty.
Qed.

Section SingleRecord.

Context (sv vv tv : value) (t : Timestamp).
Context (cols : list string) (before after : list row) (r : row).

Hypothesis valid_parses : to_datetime_coerce vv = VTs t.
Hypothesis flights_readable : readable (mkFrame cols (before ++ r :: after)).

(** A departure from the station of the record, in its bucket. *)
Lemma attach_single_dep (h m : Z) (d : Timestamp) :
  normalize_station (cell r "ORIGIN") = normalize_station sv →
  parse_time_str (cell r "DEP_TIME") = Some (h, m) →
  parse_flight_date (cell r "FL_DATE") = VTs d →
  quantize (replace_time d h m 0 0) = quantize t →
  ∃ out r',
    attach_weather
      (mkWeather ["station"; "valid"; "temp"]
         [[ {[ "station" := sv; "valid" := vv; "temp" := tv ]} ]])
      (mkFrame cols (before ++ r :: after)) = Ok out ∧
    rows out !! length before = Some r' ∧
    r' !! "DEP_temp" = Some tv ∧
    cell r' "DEP_ROUND" = VTs (quantize t) ∧
    cell r' "ORIGIN" = VStr (normalize_station sv).
Proof.
  intros Ho Hp Hd Hq.
  eexists _, _. split.
  { apply attach_weather_ok; [by apply build_weather_map_single|done]. }
  simpl. split.
  { rewrite list_lookup_fmap, list_lookup_middle by done. done. }
  rewrite enrich_row_staged.
  set (s := staged_row ["temp"] _ r).
  assert (cell s "ORIGIN" = VStr (normalize_station sv)) as Hso
    by (subst s; by rewrite staged_row_cell_origin, Ho).
  assert (cell s "DEP_ROUND" = VTs (quantize t)) as Hsd.
  { subst s. rewrite staged_row_cell_dep_round, decide_False by compute_done.
    rewrite (compute_rounded_dt_dated _ _ _ h m d); [by rewrite Hq|compute_done|done..]. }
  split; [|split].
  - change "DEP_temp" with ("DEP_" +:+ "temp").
    rewrite (attach_row_dep_some _ _ _ [("temp", tv)]); [done| |compute_done].
    rewrite Hso, Hsd. simpl. by rewrite lookup_singleton_eq.
  - unfold cell at 1. rewrite attach_row_lookup_other by compute_done. exact Hsd.
  - unfold cell at 1. rewrite attach_row_lookup_other by compute_done. exact Hso.
Qed.

(** An arrival at the station of the record, in its bucket. *)
Lemma attach_single_arr (h m : Z) (d : Timestamp) :
  normalize_station (cell r "DEST") = normalize_station sv →
  parse_time_str (cell r "ARR_TIME") = Some (h, m) →
  parse_flight_date (cell r "FL_DATE") = VTs d →
  quantize (replace_time d h m 0 0) = quantize t →
  ∃ out r',
    attach_weather
      (mkWeather ["station"; "valid"; "temp"]
         [[ {[ "station" := sv; "valid" := vv; "temp" := tv ]} ]])
      (mkFrame cols (before ++ r :: after)) = Ok out ∧
    rows out !! length before = Some r' ∧
    r' !! "ARR_temp" = Some tv ∧
    cell r' "ARR_ROUND" = VTs (quantize t) ∧
    cell r' "DEST" = VStr (normalize_station sv).
Proof.
  intros Ho Hp Hd Hq.
  eexists _, _. split.
  { apply attach_weather_ok; [by apply build_weather_map_single|done]. }
  simpl. split.
  { rewrite list_lookup_fmap, list_lookup_middle by done. done. }
  rewrite enrich_row_staged.
  set (s := staged_row ["temp"] _ r).
  assert (cell s "DEST" = VStr (normalize_station sv)) as Hso
    by (subst s; by rewrite staged_row_cell_dest, Ho).
  assert (cell s "ARR_ROUND" = VTs (quantize t)) as Hsd.
  { subst s. rewrite staged_row_cell_arr_round, decide_False by compute_done.
    rewrite (compute_rounded_dt_dated _ _ _ h m d); [by rewrite Hq|compute_done|done..]. }
  split; [|split].
  - change "ARR_temp" with ("ARR_" +:+ "temp").
    rewrite (attach_row_arr_some _ _ _ [("temp", tv)]); [done| |compute_done].
    rewrite Hso, Hsd. simpl. by rewrite lookup_singleton_eq.
  - unfold cell at 1. rewrite attach_row_lookup_other by compute_done. exact Hsd.
  - unfold cell at 1. rewrite attach_row_lookup_other by compute_done. exact Hso.
Qed.

End SingleRecord.


(** C10: a missing station code is turned into the string "NAN" on
    both sides: a weather record without a station is indexed under
    "NAN", a flight without [ORIGIN] (or [DEST]) gets the code "NAN",
    and such a leg takes the observation of such a record in its
    bucket. *)
Theorem missing_station_is_NAN (vv tv : value) (t d : Timestamp)
    (cols : list string) (before after : list row) (r : row) :
  to_datetime_coerce vv = VTs t →
  readable (mkFrame cols (before ++ r :: after)) →
  parse_flight_date (cell r "FL_DATE") = VTs d →
  let weather :=
    mkWeather ["station"; "valid"; "temp"]
      [[ {[ "station" := VNaN; "valid" := vv; "temp" := tv ]} ]] in
  normalize_station VNaN = "NAN" ∧
  (∃ mapping weather_cols,
     build_weather_map weather = Ok (mapping, weather_cols) ∧
     mapping !! ("NAN", quantize t) = Some [("temp", tv)]) ∧
  (∀ h m,
     cell r "ORIGIN" = VNaN →
     parse_time_str (cell r "DEP_TIME") = Some (h, m) →
     quantize (replace_time d h m 0 0) = quantize t →
     ∃ out r',
       attach_weather weather (mkFrame cols (before ++ r :: after)) = Ok out ∧
       rows out !! length before = Some r' ∧
       cell r' "ORIGIN" = VStr "NAN" ∧
       r' !! "DEP_temp" = Some tv) ∧
  (∀ h m,
     cell r "DEST" = VNaN →
     parse_time_str (cell r "ARR_TIME") = Some (h, m) →
     quantize (replace_time d h m 0 0) = quantize t →
     ∃ out r',
       attach_weather weather (mkFrame cols (before ++ r :: after)) = Ok out ∧
       rows out !! length before = Some r' ∧
       cell r' "DEST" = VStr "NAN" ∧
       r' !! "ARR_temp" = Some tv).
Proof.
  intros Hv Hr Hd weather.
  split; [done|]. split.
  { eexists _, _. split; [by apply build_weather_map_single|].
    apply lookup_singleton_eq. }
  split.
  - intros h m Ho Hp Hq.
    destruct (attach_single_dep VNaN vv tv t cols before after r Hv Hr h m d)
      as (out & r' & Ha & Hi & Ht & _ & Hc); [by rewrite Ho|done..|].
    exists out, r'. done.
  - intros h m Ho Hp Hq.
    destruct (attach_single_arr VNaN vv tv t cols before after r Hv Hr h m d)
      as (out & r' & Ha & Hi & Ht & _ & Hc); [by rewrite Ho|done..|].
    exists out, r'. done.
Qed.

End JoinProperties.

(** ** A closed run *)

Lemma example_flights_readable : readable (H := Iso.parser) example_flights.
Proof.
  unfold readable.
  do 3 (split; [compute_done|]).
  right.
  constructor; [eexists; vm_compute; reflexivity|].
  constructor; [eexists; vm_compute; reflexivity|].
  constructor.
Qed.

Lemma example_weather_index :
  build_weather_map (H := Iso.parser) example_weather =
    Ok ({[ ("JFK", mkTimestamp 2024 1 1 7 30 0 0 0) := [("temp", VInt 5)] ]}, ["temp"]).
Proof. exact (build_weather_map_single (H := Iso.parser) (VStr "JFK") (VStr "2024-01-01 07:31:00") (VInt 5) (mkTimestamp 2024 1 1 7 31 0 0 0) eq_refl). Qed.


(** The run of the example leaves five helper columns in the output
    and writes the origin back normalised. *)
Lemma attach_weather_columns_counterexample :
  ∃ out r',
    attach_weather (H := Iso.parser) example_weather example_flights = Ok out ∧
    columns out =
      ["FL_DATE"; "ORIGIN"; "DEST"; "DEP_TIME"; "ARR_TIME";
       "FL_DATE_TS"; "YEAR"; "MONTH"; "DEP_ROUND"; "ARR_ROUND"; "DEP_temp"; "ARR_temp"] ∧
    columns out ≠ columns example_flights ++ ["DEP_temp"; "ARR_temp"] ∧
    rows out !! 0%nat = Some r' ∧
    example_flight !! "ORIGIN" = Some (VStr "jfk ") ∧
    r' !! "ORIGIN" = Some (VStr "JFK").
Proof.
  eexists _, _. split.
  { apply (attach_weather_ok (H := Iso.parser));
      [exact example_weather_index | exact example_flights_readable]. }
  split; [vm_compute; reflexivity|].
  split; [vm_compute; discriminate|].
  split; [reflexivity|].
  split; [vm_compute; reflexivity|].
  vm_compute. reflexivity.
Qed.


Lemma attach_weather_frame_witness :
  ∃ out r',
    attach_weather (H := Iso.parser) example_weather example_flights = Ok out ∧
    rows out !! 0%nat = Some r' ∧
    cell r' "ORIGIN" = VStr "JFK" ∧
    r' !! "DEP_TIME" = Some (VStr "0730").
Proof.
  destruct (attach_weather_frame (H := Iso.parser) example_weather example_flights _ _
              example_weather_index example_flights_readable)
    as (out & Ha & _ & _ & Hrows).
  destruct (Hrows 0%nat example_flight eq_refl) as (r' & Hi & Ho & _ & Hkeep).
  exists out, r'. split; [exact Ha|]. split; [exact Hi|]. split; [exact Ho|].
  rewrite Hkeep; [reflexivity|compute_done..].
Defined.

Lemma missing_station_is_NAN_witness :
  ∃ out r',
    attach_weather (H := Iso.parser)
      (mkWeather ["station"; "valid"; "temp"]
         [[ {[ "station" := VNaN; "valid" := VStr "2024-01-01 07:31:00"; "temp" := VInt 5 ]} ]])
      (mkFrame ["FL_DATE"; "ORIGIN"; "DEST"; "DEP_TIME"; "ARR_TIME"]
               [example_flight_no_station]) = Ok out ∧
    rows out !! 0%nat = Some r' ∧
    cell r' "ORIGIN" = VStr "NAN" ∧
    r' !! "DEP_temp" = Some (VInt 5).
Proof.
  assert (readable (H := Iso.parser)
            (mkFrame ["FL_DATE"; "ORIGIN"; "DEST"; "DEP_TIME"; "ARR_TIME"]
                     ([] ++ example_flight_no_station :: []))) as Hr.
  { unfold readable. do 3 (split; [compute_done|]). right.
    constructor; [eexists; vm_compute; reflexivity|constructor]. }
  destruct (missing_station_is_NAN (H := Iso.parser)
              (VStr "2024-01-01 07:31:00") (VInt 5)
              (mkTimestamp 2024 1 1 7 31 0 0 0) (mkTimestamp 2024 1 1 0 0 0 0 0)
              _ [] [] example_flight_no_station eq_refl Hr eq_refl)
    as (_ & _ & Hdep & _).
  exact (Hdep 7 30 eq_refl eq_refl eq_refl).
Defined.

(** * Further properties *)

(** ** Buckets *)












(** ** The shapes of a flight time *)

Lemma digit_val_range (c : ascii) : Str.is_digit c = true → 0 ≤ Str.digit_val c ≤ 9.
Proof.
  unfold Str.is_digit, Str.digit_val. intros [H1 H2]%andb_prop.
  apply Nat.leb_le in H1, H2. lia.
Qed.

Lemma colon_two_digits_digit (c : ascii) (s : string) :
  Str.is_digit c = true →
  Re.colon_two_digits (String c s) = fst <$> Re.two_digits (String c s).
Proof.
  intros Hc. unfold Re.colon_two_digits.
  destruct c as [[] [] [] [] [] [] [] []]; try done; discriminate Hc.
Qed.

Lemma two_digits_digits (c d : ascii) (s : string) :
  Str.is_digit c = true → Str.is_digit d = true →
  Re.two_digits (String c (String d s)) = Some (String c (String d EmptyString), s).
Proof. intros Hc Hd. unfold Re.two_digits. by rewrite Hc, Hd. Qed.

Lemma int_digits_two (c d : ascii) :
  Str.int_digits (String c (String d EmptyString)) = 10 * Str.digit_val c + Str.digit_val d.
Proof. unfold Str.int_digits; simpl. lia. Qed.

Lemma int_digits_one (c : ascii) :
  Str.int_digits (String c EmptyString) = Str.digit_val c.
Proof. unfold Str.int_digits; simpl. lia. Qed.

Lemma search_hhmm_here (s : string) (g : string * string) :
  Re.hhmm_here s = Some g → Re.search_hhmm s = Some g.
Proof.
  intros Hg. destruct s as [|c s]; [done|].
  change (Re.search_hhmm (String c s))
    with (match Re.hhmm_here (String c s) with
          | Some g => Some g
          | None => Re.search_hhmm s
          end).
  by rewrite Hg.
Qed.

Lemma raw_hm_groups (s g1 g2 : string) :
  Re.hhmm_here s = Some (g1, g2) → raw_hm s = Some (Str.int_digits g1, Str.int_digits g2).
Proof. intros Hg. unfold raw_hm. by rewrite (search_hhmm_here _ _ Hg). Qed.

Section Shapes.

Context (a b c d : ascii) (rest : string).
Hypothesis digit_a : Str.is_digit a = true.
Hypothesis digit_b : Str.is_digit b = true.
Hypothesis digit_c : Str.is_digit c = true.
Hypothesis digit_d : Str.is_digit d = true.

Lemma raw_hm_hhmm :
  raw_hm (String a (String b (String c (String d rest)))) =
    Some (10 * Str.digit_val a + Str.digit_val b, 10 * Str.digit_val c + Str.digit_val d).
Proof.
  rewrite (raw_hm_groups _ (String a (String b EmptyString)) (String c (String d EmptyString))).
  - by rewrite !int_digits_two.
  - unfold Re.hhmm_here. rewrite digit_a, digit_b.
    by rewrite colon_two_digits_digit, two_digits_digits.
Qed.

Lemma raw_hm_hh_colon_mm :
  raw_hm (String a (String b (String ":" (String c (String d rest))))) =
    Some (10 * Str.digit_val a + Str.digit_val b, 10 * Str.digit_val c + Str.digit_val d).
Proof.
  rewrite (raw_hm_groups _ (String a (String b EmptyString)) (String c (String d EmptyString))).
  - by rewrite !int_digits_two.
  - unfold Re.hhmm_here. rewrite digit_a, digit_b.
    unfold Re.colon_two_digits. by rewrite two_digits_digits.
Qed.

Lemma raw_hm_h_colon_mm :
  raw_hm (String a (String ":" (String c (String d rest)))) =
    Some (Str.digit_val a, 10 * Str.digit_val c + Str.digit_val d).
Proof.
  rewrite (raw_hm_groups _ (String a EmptyString) (String c (String d EmptyString))).
  - by rewrite int_digits_one, int_digits_two.
  - unfold Re.hhmm_here. rewrite digit_a.
    change (Str.is_digit ":") with false. cbv iota.
    unfold Re.colon_two_digits. by rewrite two_digits_digits.
Qed.

Lemma raw_hm_hmm :
  (∀ e r, rest = String e r → Str.is_digit e = false) →
  raw_hm (String a (String c (String d rest))) =
    Some (Str.digit_val a, 10 * Str.digit_val c + Str.digit_val d).
Proof.
  intros Hrest.
  rewrite (raw_hm_groups _ (String a EmptyString) (String c (String d EmptyString))).
  - by rewrite int_digits_one, int_digits_two.
  - unfold Re.hhmm_here. rewrite digit_a, digit_c.
    rewrite (colon_two_digits_digit d) by done.
    assert (Re.two_digits (String d rest) = None) as ->.
    { unfold Re.two_digits. destruct rest as [|e r]; [done|].
      by rewrite (Hrest e r eq_refl), andb_false_r. }
    simpl. by rewrite colon_two_digits_digit, two_digits_digits.
Qed.

End Shapes.

(** X3: the shapes of a flight time.  A text that starts, once
    stripped, with four digits [HHMM], with [HH:MM] or with [H:MM] is
    read as that hour and minute whatever follows, and three digits
    that no digit follows are read as [HMM]; the ranges are checked
    on that pair. *)
Theorem parse_time_str_shapes (v : value) (a b c d : ascii) (rest : string) :
  isna v = false →
  Str.is_digit a = true → Str.is_digit b = true →
  Str.is_digit c = true → Str.is_digit d = true →
  let hh := 10 * Str.digit_val a + Str.digit_val b in
  let h := Str.digit_val a in
  let mm := 10 * Str.digit_val c + Str.digit_val d in
  (Str.strip (py_str v) = String a (String b (String c (String d rest))) →
   parse_time_str v = check_hm hh mm) ∧
  (Str.strip (py_str v) = String a (String b (String ":" (String c (String d rest)))) →
   parse_time_str v = check_hm hh mm) ∧
  (Str.strip (py_str v) = String a (String ":" (String c (String d rest))) →
   parse_time_str v = check_hm h mm) ∧
  (Str.strip (py_str v) = String a (String c (String d rest)) →
   (∀ e r, rest = String e r → Str.is_digit e = false) →
   parse_time_str v = check_hm h mm).
Proof.
  intros Hna Ha Hb Hc Hd hh h mm. rewrite parse_time_str_unfold, Hna.
  repeat split.
  - intros ->. by rewrite raw_hm_hhmm.
  - intros ->. by rewrite raw_hm_hh_colon_mm.
  - intros ->. by rewrite raw_hm_h_colon_mm.
  - intros -> Hrest. by rewrite raw_hm_hmm.
Qed.

Lemma parse_time_str_shapes_witness :
  parse_time_str (VStr " 1234567 ") = Some (12, 34) ∧
  parse_time_str (VStr "23:59:59") = Some (23, 59) ∧
  parse_time_str (VStr "9:05 PM") = Some (9, 5) ∧
  parse_time_str (VInt 905) = Some (9, 5).
Proof.
  split; [|split; [|split]].
  - exact (proj1 (parse_time_str_shapes (VStr " 1234567 ") "1" "2" "3" "4" "567"
                    eq_refl eq_refl eq_refl eq_refl eq_refl) eq_refl).
  - exact (proj1 (proj2 (parse_time_str_shapes (VStr "23:59:59") "2" "3" "5" "9" ":59"
                    eq_refl eq_refl eq_refl eq_refl eq_refl)) eq_refl).
  - exact (proj1 (proj2 (proj2 (parse_time_str_shapes (VStr "9:05 PM") "9" "0" "0" "5" " PM"
                    eq_refl eq_refl eq_refl eq_refl eq_refl))) eq_refl).
  - refine (proj2 (proj2 (proj2 (parse_time_str_shapes (VInt 905) "9" "0" "0" "5" ""
                    eq_refl eq_refl eq_refl eq_refl eq_refl))) eq_refl _).
    intros e r He. discriminate He.
Defined.

(** X4: a text of one or two digits is read as minutes past
    midnight, the hour being 0; two digits above 59 give nothing. *)
Theorem parse_time_str_minutes_only (v : value) (a b : ascii) :
  isna v = false →
  Str.is_digit a = true → Str.is_digit b = true →
  (Str.strip (py_str v) = String a EmptyString →
   parse_time_str v = Some (0, Str.digit_val a)) ∧
  (Str.strip (py_str v) = String a (String b EmptyString) →
   parse_time_str v =
     if 10 * Str.digit_val a + Str.digit_val b <=? 59
     then Some (0, 10 * Str.digit_val a + Str.digit_val b) else None).
Proof.
  intros Hna Ha Hb. rewrite parse_time_str_unfold, Hna.
  pose proof (digit_val_range a Ha) as Hra. pose proof (digit_val_range b Hb) as Hrb.
  split; intros ->.
  - assert (raw_hm (String a EmptyString) = Some (0, Str.digit_val a)) as ->.
    { unfold raw_hm, Str.zfill, String.app. simpl. rewrite !Ha. simpl.
      unfold Str.int_digits; simpl. do 2 f_equal; lia. }
    simpl. unfold check_hm.
    destruct (Z.eqb_spec (Str.digit_val a) 0) as [->|]; simpl; [done|].
    rewrite !(proj2 (Z.leb_le _ _)) by lia. done.
  - assert (raw_hm (String a (String b EmptyString)) =
              Some (0, 10 * Str.digit_val a + Str.digit_val b)) as ->.
    { unfold raw_hm, Str.zfill, String.app. simpl. rewrite ?Ha, ?Hb. simpl.
      rewrite ?Ha, ?Hb. simpl.
      rewrite (colon_two_digits_digit b) by done.
      unfold Str.int_digits; simpl. do 2 f_equal; lia. }
    simpl. unfold check_hm. simpl.
    rewrite (proj2 (Z.leb_le 0 _)) by lia. done.
Qed.

Lemma parse_time_str_minutes_only_witness :
  parse_time_str (VStr "7") = Some (0, 7) ∧
  parse_time_str (VStr "75") = None.
Proof.
  split.
  - exact (proj1 (parse_time_str_minutes_only (VStr "7") "7" "0" eq_refl eq_refl eq_refl) eq_refl).
  - exact (proj2 (parse_time_str_minutes_only (VStr "75") "7" "5" eq_refl eq_refl eq_refl) eq_refl).
Defined.

(** ** Station codes *)

Lemma str_app_cons (c : ascii) (s t : string) : String c s +:+ t = String c (s +:+ t).
Proof. done. Qed.

Lemma str_app_nil_l (s : string) : "" +:+ s = s.
Proof. done. Qed.

Lemma str_app_nil_r (s : string) : s +:+ "" = s.
Proof. induction s as [|c s IH]; [done|]. by rewrite str_app_cons, IH. Qed.

Lemma str_app_assoc (s t u : string) : (s +:+ t) +:+ u = s +:+ t +:+ u.
Proof. induction s as [|c s IH]; [done|]. by rewrite !str_app_cons, IH. Qed.

Lemma str_rev_app_eq (s acc : string) : String.rev_app s acc = String.rev s +:+ acc.
Proof.
  unfold String.rev. revert acc. induction s as [|c s IH]; intros acc; [done|].
  simpl. rewrite (IH (String c acc)), (IH (String c "")), str_app_assoc. done.
Qed.

Lemma str_rev_cons (c : ascii) (s : string) : String.rev (String c s) = String.rev s +:+ String c "".
Proof. unfold String.rev at 1. simpl. apply str_rev_app_eq. Qed.

Lemma str_rev_app_distr (s t : string) : String.rev (s +:+ t) = String.rev t +:+ String.rev s.
Proof.
  induction s as [|c s IH]; [by rewrite str_app_nil_l, str_app_nil_r|].
  by rewrite str_app_cons, !str_rev_cons, IH, str_app_assoc.
Qed.

Lemma str_rev_involutive (s : string) : String.rev (String.rev s) = s.
Proof.
  induction s as [|c s IH]; [done|].
  by rewrite str_rev_cons, str_rev_app_distr, IH.
Qed.

Lemma lstrip_idem (s : string) : Str.lstrip (Str.lstrip s) = Str.lstrip s.
Proof.
  induction s as [|c s IH]; [done|]. simpl.
  destruct (Str.is_space c) eqn:Hc; [done|]. simpl. by rewrite Hc.
Qed.

Lemma lstrip_head (s : string) (c : ascii) (r : string) :
  Str.lstrip s = String c r → Str.is_space c = false.
Proof.
  induction s as [|c' s IH]; [done|]. simpl.
  destruct (Str.is_space c') eqn:Hc; [done|]. by intros [= <- <-].
Qed.

Lemma lstrip_app (s t : string) :
  Str.lstrip (s +:+ t) = if all_space s then Str.lstrip t else Str.lstrip s +:+ t.
Proof.
  induction s as [|c s IH]; [done|]. rewrite str_app_cons. simpl.
  destruct (Str.is_space c); simpl; [apply IH|done].
Qed.

Lemma all_space_lstrip (s : string) : all_space s = true → Str.lstrip s = "".
Proof.
  induction s as [|c s IH]; [done|]. simpl. intros [Hc Hs]%andb_prop. rewrite Hc. auto.
Qed.

Lemma lstrip_all_space (s : string) : Str.lstrip s = "" → all_space s = true.
Proof.
  induction s as [|c s IH]; [done|]. simpl.
  destruct (Str.is_space c); [simpl; auto|done].
Qed.

Lemma all_space_app (s t : string) : all_space (s +:+ t) = all_space s && all_space t.
Proof.
  induction s as [|c s IH]; [done|]. rewrite str_app_cons. simpl. by rewrite IH, andb_assoc.
Qed.

Lemma all_space_rev (s : string) : all_space (String.rev s) = all_space s.
Proof.
  induction s as [|c s IH]; [done|].
  rewrite str_rev_cons, all_space_app, IH. simpl. by rewrite andb_true_r, andb_comm.
Qed.

Lemma rstrip_headed (c : ascii) (r : string) :
  Str.is_space c = false → Str.rstrip (String c r) = String c (Str.rstrip r).
Proof.
  intros Hc. unfold Str.rstrip. rewrite str_rev_cons, lstrip_app.
  destruct (all_space (String.rev r)) eqn:Hs.
  - simpl. rewrite Hc. by rewrite (all_space_lstrip _ Hs).
  - by rewrite str_rev_app_distr.
Qed.

Lemma rstrip_idem (s : string) : Str.rstrip (Str.rstrip s) = Str.rstrip s.
Proof. unfold Str.rstrip. by rewrite str_rev_involutive, lstrip_idem. Qed.

Lemma strip_idem (s : string) : Str.strip (Str.strip s) = Str.strip s.
Proof.
  unfold Str.strip.
  assert (Str.lstrip (Str.rstrip (Str.lstrip s)) = Str.rstrip (Str.lstrip s)) as ->.
  { destruct (Str.lstrip s) as [|c r] eqn:Hl; [done|].
    pose proof (lstrip_head _ _ _ Hl) as Hc.
    rewrite rstrip_headed by done. simpl. by rewrite Hc. }
  apply rstrip_idem.
Qed.

Lemma strip_padding (l s r : string) :
  all_space l = true → all_space r = true → Str.strip (l +:+ s +:+ r) = Str.strip s.
Proof.
  intros Hl Hr. unfold Str.strip.
  rewrite lstrip_app, Hl, lstrip_app.
  destruct (all_space s) eqn:Hs.
  - by rewrite (all_space_lstrip _ Hr), (all_space_lstrip _ Hs).
  - unfold Str.rstrip. rewrite str_rev_app_distr, lstrip_app, all_space_rev, Hr. done.
Qed.

Lemma upper_char_idem (c : ascii) : Str.upper_char (Str.upper_char c) = Str.upper_char c.
Proof. by destruct c as [[] [] [] [] [] [] [] []]. Qed.

Lemma is_space_upper_char (c : ascii) : Str.is_space (Str.upper_char c) = Str.is_space c.
Proof. by destruct c as [[] [] [] [] [] [] [] []]. Qed.

Lemma upper_idem (s : string) : Str.upper (Str.upper s) = Str.upper s.
Proof. induction s as [|c s IH]; [done|]. simpl. by rewrite upper_char_idem, IH. Qed.

Lemma upper_app (s t : string) : Str.upper (s +:+ t) = Str.upper s +:+ Str.upper t.
Proof. induction s as [|c s IH]; [done|]. rewrite str_app_cons. simpl. by rewrite IH. Qed.

Lemma upper_rev (s : string) : Str.upper (String.rev s) = String.rev (Str.upper s).
Proof.
  induction s as [|c s IH]; [done|]. simpl. by rewrite !str_rev_cons, upper_app, IH.
Qed.

Lemma lstrip_upper (s : string) : Str.lstrip (Str.upper s) = Str.upper (Str.lstrip s).
Proof.
  induction s as [|c s IH]; [done|]. simpl. rewrite is_space_upper_char.
  destruct (Str.is_space c); [apply IH|done].
Qed.

Lemma strip_upper (s : string) : Str.strip (Str.upper s) = Str.upper (Str.strip s).
Proof.
  unfold Str.strip, Str.rstrip.
  by rewrite lstrip_upper, <- upper_rev, lstrip_upper, upper_rev.
Qed.

(** X5: the normalisation of a station code is idempotent, and it
    sees neither the case of the letters nor the blanks around the
    code. *)
Theorem normalize_station_stable (v : value) (s l r : string) :
  normalize_station (VStr (normalize_station v)) = normalize_station v ∧
  normalize_station (VStr (Str.upper s)) = normalize_station (VStr s) ∧
  (all_space l = true → all_space r = true →
   normalize_station (VStr (l +:+ s +:+ r)) = normalize_station (VStr s)).
Proof.
  unfold normalize_station. simpl. split; [|split].
  - by rewrite strip_upper, strip_idem, upper_idem.
  - by rewrite strip_upper, upper_idem.
  - intros Hl Hr. by rewrite strip_padding.
Qed.

Lemma normalize_station_stable_witness :
  normalize_station (VStr (String "009" " " +:+ "Jfk" +:+ "  ")) = "JFK".
Proof.
  exact (proj2 (proj2 (normalize_station_stable VNaN "Jfk" (String "009" " ") "  "))
           eq_refl eq_refl).
Defined.

(** X15: blanks around the text change neither the flight time nor
    the flight date that is read from it. *)
Theorem parsers_ignore_padding `{DateParser} (l s r : string) :
  all_space l = true → all_space r = true →
  parse_time_str (VStr (l +:+ s +:+ r)) = parse_time_str (VStr s) ∧
  parse_flight_date (VStr (l +:+ s +:+ r)) = parse_flight_date (VStr s).
Proof.
  intros Hl Hr. unfold parse_time_str, parse_flight_date. simpl.
  by rewrite (strip_padding l s r Hl Hr).
Qed.

Lemma parsers_ignore_padding_witness :
  parse_time_str (VStr (" " +:+ "0730" +:+ "  ")) = parse_time_str (VStr "0730") ∧
  parse_flight_date (H := Iso.parser) (VStr (" " +:+ "0730" +:+ "  ")) =
    parse_flight_date (H := Iso.parser) (VStr "0730").
Proof. apply (parsers_ignore_padding (H := Iso.parser)); reflexivity. Defined.

(** ** The shape of the index *)

Section IndexShape.

Context `{DateParser}.
Context (header : list string).
Hypothesis has_valid : "valid" ∈ header.
Hypothesis has_station : "station" ∈ header.

Lemma filter_fields_keys (l : list string) :
  filter (λ c, c ∉ ["station"; "valid"; "valid_15"])
         (filter (λ c, c ∉ ["station"; "valid_15"]) l) =
  filter (λ c, c ∉ ["station"; "valid"; "valid_15"]) l.
Proof.
  induction l as [|c l IH]; [done|].
  rewrite (filter_cons _ c l).
  destruct (decide (c ∉ ["station"; "valid_15"])) as [Hk|Hk].
  - rewrite !filter_cons. destruct (decide (c ∉ ["station"; "valid"; "valid_15"])); by rewrite IH.
  - rewrite IH, filter_cons_False; [done|]. intros Hc. apply Hk. intros Hin. apply Hc.
    apply elem_of_cons in Hin as [->|Hin]; [left|].
    apply list_elem_of_singleton in Hin as ->. do 2 right. left.
Qed.

Lemma field_names_grouped (records : list row) :
  filter (λ c, c ∉ ["station"; "valid"; "valid_15"])
         (grouped_columns (prepare_chunk (mkFrame header records))) = field_names header.
Proof.
  rewrite prepare_chunk_eq. unfold grouped_columns, field_names; simpl columns.
  rewrite (add_column_present "station") by done.
  rewrite (add_column_present "valid") by done.
  rewrite filter_app, filter_fields_keys.
  replace (filter (λ c, c ∉ ["station"; "valid"; "valid_15"]) ["station"; "valid_15"])
    with (@nil string) by (symmetry; rewrite !filter_cons_False by set_solver; done).
  unfold add_column. case_decide as Hin; [done|].
  rewrite filter_app, filter_cons_False, filter_nil, app_nil_r; [done|]. set_solver.
Qed.

Lemma store_group_eq (records : list row)
    (st : gmap weather_key rowdict * option (list string)) (k : weather_key) (r : row) :
  store_group (grouped_columns (prepare_chunk (mkFrame header records))) st (k, r) =
    (<[k := observation header r]> st.1,
     match st.2 with None => Some (field_names header) | Some _ => st.2 end).
Proof.
  destruct st as [m cols]. unfold store_group. rewrite field_names_grouped.
  unfold observation. f_equal. destruct cols; [done|].
  f_equal. rewrite <- list_fmap_compose. apply list_fmap_id.
Qed.

Lemma observation_names (r : row) : (observation header r).*1 = field_names header.
Proof. unfold observation. rewrite <- list_fmap_compose. apply list_fmap_id. Qed.

Lemma store_group_shape (records : list row)
    (st : gmap weather_key rowdict * option (list string)) (kr : weather_key * row) :
  index_shape header st →
  index_shape header (store_group (grouped_columns (prepare_chunk (mkFrame header records))) st kr).
Proof.
  destruct kr as [k r]. rewrite store_group_eq. intros [Hw Hc]. split; simpl.
  - intros k' w. destruct (decide (k = k')) as [->|Hne].
    + rewrite lookup_insert_eq. intros [= <-]. apply observation_names.
    + rewrite lookup_insert_ne by done. apply Hw.
  - right. split; [|apply insert_non_empty].
    destruct Hc as [[-> _]|[-> _]]; done.
Qed.

Lemma index_step_shape (records : list row)
    (st : gmap weather_key rowdict * option (list string)) :
  index_shape header st → index_shape header (index_step header st records).
Proof.
  unfold index_step.
  generalize (groupby_first (prepare_chunk (mkFrame header records))) as g.
  intros g. revert st. induction g as [|kr g IH]; intros st Hst; [done|].
  simpl. by apply IH, store_group_shape.
Qed.

Lemma foldl_index_step_shape (chunks : list (list row))
    (st : gmap weather_key rowdict * option (list string)) :
  index_shape header st → index_shape header (foldl (index_step header) st chunks).
Proof.
  revert st. induction chunks as [|rs chunks IH]; intros st Hst; [done|].
  simpl. by apply IH, index_step_shape.
Qed.

Lemma index_shape_empty : index_shape header (∅, None).
Proof. split; simpl; [|by left]. intros k w. by rewrite lookup_empty. Qed.

End IndexShape.

Lemma field_names_spec (header : list string) (c : string) :
  c ∈ field_names header ↔ c ∈ header ∧ c ≠ "station" ∧ c ≠ "valid" ∧ c ≠ "valid_15".
Proof.
  unfold field_names. rewrite list_elem_of_filter, !not_elem_of_cons. 
  split; [intros ((?&?&?&_)&?)|intros (?&?&?&?)]; repeat split; try done.
  apply not_elem_of_nil.
Qed.

(** X6: the schema of the index.  Every stored observation has the
    columns of the weather header other than [station], [valid] and
    [valid_15], in header order; the returned column list is that list
    when the index has an entry and is empty when it has none. *)
Theorem build_weather_map_schema `{DateParser} (header : list string) (chunks : list (list row))
    (mapping : gmap weather_key rowdict) (cols : list string) :
  build_weather_map (mkWeather header chunks) = Ok (mapping, cols) →
  (∀ k w, mapping !! k = Some w → w.*1 = field_names header) ∧
  (mapping ≠ ∅ → cols = field_names header) ∧
  (mapping = ∅ → cols = []) ∧
  (∀ c, c ∈ cols → c ∈ header ∧ c ≠ "station" ∧ c ≠ "valid" ∧ c ≠ "valid_15").
Proof.
  intros Hb.
  destruct (decide ("valid" ∈ header)) as [Hv|Hv];
    [|by rewrite build_weather_map_missing_valid in Hb].
  assert (Hshape : ∃ st, index_shape header st ∧ mapping = st.1 ∧ cols = default [] st.2).
  { destruct (decide ("station" ∈ header)) as [Hs|Hs].
    - rewrite build_weather_map_ok in Hb by done. injection Hb as <- <-.
      eexists. split; [|done]. apply foldl_index_step_shape; [done..|]. apply index_shape_empty.
    - destruct chunks as [|rs chunks];
        [|by rewrite build_weather_map_missing_station in Hb].
      unfold build_weather_map, read_weather_csv in Hb; simpl in Hb.
      rewrite decide_True in Hb by done. simpl in Hb. injection Hb as <- <-.
      exists (∅, None). split; [apply index_shape_empty|done]. }
  destruct Hshape as ([m c] & [Hw Hc] & -> & ->). simpl in *.
  assert (Hcols : (m ≠ ∅ → default [] c = field_names header) ∧ (m = ∅ → default [] c = [])).
  { destruct Hc as [[-> ->]|[-> Hne]]; simpl; split; done. }
  split; [done|]. split; [apply Hcols|]. split; [apply Hcols|].
  intros x Hx. apply field_names_spec.
  destruct Hc as [[-> ->]|[-> Hne]]; simpl in Hx; [by apply elem_of_nil in Hx|done].
Qed.

Lemma build_weather_map_schema_witness :
  ["temp"] = field_names ["station"; "valid"; "temp"].
Proof.
  pose proof (build_weather_map_schema (H := Iso.parser) ["station"; "valid"; "temp"]
    [[ {[ "station" := VStr "JFK"; "valid" := VStr "2024-01-01 07:31:00"; "temp" := VInt 5 ]} ]]
    _ ["temp"] (build_weather_map_single (H := Iso.parser) (VStr "JFK") (VStr "2024-01-01 07:31:00") (VInt 5)
                  (mkTimestamp 2024 1 1 7 31 0 0 0) eq_refl)) as (_ & Hne & _).
  apply Hne, insert_non_empty.
Defined.


(** ** One chunk after the others *)

Lemma foldl_store_group_union (gcols : list string)
    (st : gmap weather_key rowdict * option (list string)) (g : list (weather_key * row)) :
  (foldl (store_group gcols) st g).1 = (foldl (store_group gcols) (∅, None) g).1 ∪ st.1.
Proof.
  induction g as [|[k r] g IH] using rev_ind.
  - simpl. by rewrite (left_id_L ∅ (∪)).
  - rewrite !foldl_snoc.
    destruct (foldl (store_group gcols) st g) as [m c].
    destruct (foldl (store_group gcols) (∅, None) g) as [m0 c0].
    simpl in *. subst m. by rewrite insert_union_l.
Qed.

Section Composition.

Context `{DateParser}.
Context (header : list string).

Lemma index_step_union (st : gmap weather_key rowdict * option (list string))
    (records : list row) :
  (index_step header st records).1 = (index_step header (∅, None) records).1 ∪ st.1.
Proof. apply foldl_store_group_union. Qed.

Lemma foldl_index_step_union (st : gmap weather_key rowdict * option (list string))
    (chunks : list (list row)) :
  (foldl (index_step header) st chunks).1 =
    (foldl (index_step header) (∅, None) chunks).1 ∪ st.1.
Proof.
  induction chunks as [|rs chunks IH] using rev_ind.
  - simpl. by rewrite (left_id_L ∅ (∪)).
  - rewrite !foldl_snoc.
    rewrite (index_step_union (foldl _ st chunks)), IH.
    rewrite (index_step_union (foldl _ (∅, None) chunks)).
    by rewrite (assoc_L (∪)).
Qed.

End Composition.

(** X7: chunks compose.  The index of a file is the index of its
    later chunks laid over the index of its earlier chunks: a key of
    the later chunks has their observation, any other key keeps the
    one of the earlier chunks. *)
Theorem build_weather_map_app `{DateParser} (header : list string)
    (earlier later : list (list row)) :
  "valid" ∈ header → "station" ∈ header →
  ∃ m1 c1 m2 c2 cols,
    build_weather_map (mkWeather header earlier) = Ok (m1, c1) ∧
    build_weather_map (mkWeather header later) = Ok (m2, c2) ∧
    build_weather_map (mkWeather header (earlier ++ later)) = Ok (m2 ∪ m1, cols) ∧
    ∀ k, (m2 ∪ m1) !! k = match m2 !! k with Some w => Some w | None => m1 !! k end.
Proof.
  intros Hv Hs. rewrite !build_weather_map_ok by done.
  do 5 eexists. split; [done|]. split; [done|]. split.
  - rewrite foldl_app. f_equal. f_equal. apply foldl_index_step_union.
  - intros k. rewrite lookup_union. 
    destruct (_ !! k) as [w|]; [by rewrite union_Some_l|by rewrite (left_id_L None _)].
Qed.

Lemma build_weather_map_app_witness :
  ∃ m1 c1 m2 c2 cols,
    build_weather_map (H := Iso.parser) (mkWeather ["station"; "valid"; "temp"]
      [[ {[ "station" := VStr "JFK"; "valid" := VStr "2024-01-01 07:31:00"; "temp" := VInt 5 ]} ]]) = Ok (m1, c1) ∧
    build_weather_map (H := Iso.parser) (mkWeather ["station"; "valid"; "temp"]
      [[ {[ "station" := VStr "JFK"; "valid" := VStr "2024-01-01 07:29:00"; "temp" := VInt 9 ]} ]]) = Ok (m2, c2) ∧
    build_weather_map (H := Iso.parser) (mkWeather ["station"; "valid"; "temp"]
      ([[ {[ "station" := VStr "JFK"; "valid" := VStr "2024-01-01 07:31:00"; "temp" := VInt 5 ]} ]] ++
       [[ {[ "station" := VStr "JFK"; "valid" := VStr "2024-01-01 07:29:00"; "temp" := VInt 9 ]} ]])) =
      Ok (m2 ∪ m1, cols) ∧
    ∀ k, (m2 ∪ m1) !! k = match m2 !! k with Some w => Some w | None => m1 !! k end.
Proof. apply (build_weather_map_app (H := Iso.parser)); compute_done. Defined.

(** ** The first value that is not null *)

Lemma group_lookup_group_add (k k' : weather_key) (r : row) (g : list (weather_key * row)) :
  group_lookup k' (group_add k r g) =
    if decide (k' = k)
    then Some (match group_lookup k g with Some acc => merge_first acc r | None => r end)
    else group_lookup k' g.
Proof.
  induction g as [|[k0 acc] g IH]; simpl.
  - repeat case_decide; congruence.
  - destruct (decide (k = k0)) as [->|Hne]; simpl.
    + repeat case_decide; congruence.
    + rewrite IH. repeat case_decide; congruence.
Qed.

Lemma NoDup_group_add (k : weather_key) (r : row) (g : list (weather_key * row)) :
  NoDup g.*1 → NoDup (group_add k r g).*1.
Proof.
  induction g as [|[k0 acc] g IH]; simpl.
  - intros _. apply NoDup_singleton.
  - rewrite NoDup_cons. intros [Hk0 Hg]. case_decide as Hk; simpl.
    + by apply NoDup_cons.
    + apply NoDup_cons. split; [|by apply IH].
      rewrite elem_of_group_add_keys. intros [->|?]; done.
Qed.

Lemma NoDup_groupby_first (df : frame) : NoDup (groupby_first df).*1.
Proof.
  unfold groupby_first.
  assert (Hacc : ∀ rs g0, NoDup g0.*1 →
            NoDup (foldl (λ g r, match group_key r with
                                 | Some k => group_add k r g
                                 | None => g
                                 end) g0 rs).*1).
  { induction rs as [|r rs IH]; intros g0 Hg0; [done|].
    simpl. apply IH. destruct (group_key r); [by apply NoDup_group_add|done]. }
  apply Hacc. simpl. apply NoDup_nil_2.
Qed.

Lemma group_lookup_None (k : weather_key) (g : list (weather_key * row)) :
  k ∉ g.*1 → group_lookup k g = None.
Proof.
  induction g as [|[k0 acc] g IH]; [done|]. simpl.
  rewrite not_elem_of_cons. intros [Hne Hk]. rewrite decide_False by done. by apply IH.
Qed.

Lemma foldl_store_group_lookup (gcols : list string)
    (st : gmap weather_key rowdict * option (list string))
    (g : list (weather_key * row)) (k : weather_key) :
  NoDup g.*1 →
  (foldl (store_group gcols) st g).1 !! k =
    match group_lookup k g with
    | Some acc => (store_group gcols st (k, acc)).1 !! k
    | None => st.1 !! k
    end.
Proof.
  revert st. induction g as [|[k0 acc] g IH]; intros [m c]; [done|].
  simpl. rewrite NoDup_cons. intros [Hk0 Hg]. rewrite IH by done.
  destruct (decide (k = k0)) as [->|Hne].
  - rewrite group_lookup_None by done. done.
  - destruct (group_lookup k g) as [a|]; simpl.
    + by rewrite !lookup_insert_eq.
    + by rewrite lookup_insert_ne.
Qed.

Lemma group_lookup_foldl (k : weather_key) (rs : list row) (g0 : list (weather_key * row)) :
  group_lookup k (foldl (λ g r, match group_key r with
                                | Some k => group_add k r g
                                | None => g
                                end) g0 rs) =
  foldl (λ o r, Some (match o with Some acc => merge_first acc r | None => r end))
        (group_lookup k g0) (filter (λ r, group_key r = Some k) rs).
Proof.
  revert g0. induction rs as [|r rs IH]; intros g0; [done|].
  simpl. rewrite IH, filter_cons.
  destruct (group_key r) as [k0|] eqn:Hk0.
  - rewrite group_lookup_group_add.
    destruct (decide (k = k0)) as [->|Hne].
    + rewrite decide_True by done. done.
    + rewrite decide_False by congruence. done.
  - rewrite decide_False by done. done.
Qed.

Lemma group_lookup_groupby_first (df : frame) (k : weather_key) :
  group_lookup k (groupby_first df) = group_of (filter (λ r, group_key r = Some k) (rows df)).
Proof. unfold groupby_first. by rewrite group_lookup_foldl. Qed.

Lemma cell_merge_first (acc r : row) (c : string) :
  cell (merge_first acc r) c =
    match acc !! c, r !! c with
    | Some a, Some b => first_notna a b
    | Some a, None => a
    | None, _ => cell r c
    end.
Proof.
  unfold cell, merge_first. rewrite lookup_union_with.
  destruct (acc !! c), (r !! c); done.
Qed.

Lemma cell_merge_first_keep (acc r : row) (c : string) :
  isna (cell acc c) = false → cell (merge_first acc r) c = cell acc c.
Proof.
  rewrite cell_merge_first. unfold cell, first_notna.
  destruct (acc !! c) as [a|], (r !! c) as [b|]; simpl; try done.
  by intros ->.
Qed.

Lemma cell_merge_first_take (acc r : row) (c : string) :
  isna (cell acc c) = true → isna (cell r c) = false →
  cell (merge_first acc r) c = cell r c.
Proof.
  rewrite cell_merge_first. unfold cell, first_notna.
  destruct (acc !! c) as [a|], (r !! c) as [b|]; simpl; try done.
  by intros ->.
Qed.

Lemma cell_merge_first_null (acc r : row) (c : string) :
  isna (cell acc c) = true → isna (cell r c) = true →
  isna (cell (merge_first acc r) c) = true.
Proof.
  rewrite cell_merge_first. unfold cell, first_notna.
  destruct (acc !! c) as [a|], (r !! c) as [b|]; simpl; try done.
  by intros ->.
Qed.

Lemma group_of_app (pre post : list row) :
  group_of (pre ++ post) =
    foldl (λ o r, Some (match o with Some acc => merge_first acc r | None => r end))
          (group_of pre) post.
Proof. unfold group_of. by rewrite foldl_app. Qed.

Lemma group_of_null (rs : list row) (c : string) :
  (∀ r, r ∈ rs → isna (cell r c) = true) →
  ∀ acc, group_of rs = Some acc → isna (cell acc c) = true.
Proof.
  induction rs as [|r rs IH] using rev_ind; [done|].
  intros Hrs acc. rewrite group_of_app. simpl.
  intros [= <-].
  assert (Hr : isna (cell r c) = true) by (apply Hrs, elem_of_app; right; left).
  destruct (group_of rs) as [a|] eqn:Ha; [|done].
  apply cell_merge_first_null; [|done].
  apply IH; [|done]. intros r0 Hr0. apply Hrs, elem_of_app. by left.
Qed.

Lemma foldl_merge_first_keep (rs : list row) (a : row) (c : string) :
  isna (cell a c) = false →
  ∃ acc, foldl (λ o r, Some (match o with Some acc => merge_first acc r | None => r end))
               (Some a) rs = Some acc ∧ cell acc c = cell a c.
Proof.
  revert a. induction rs as [|r rs IH]; intros a Ha; [by exists a|].
  simpl. destruct (IH (merge_first a r)) as (acc & -> & Hacc).
  - by rewrite cell_merge_first_keep.
  - exists acc. split; [done|]. by rewrite Hacc, cell_merge_first_keep.
Qed.

Lemma group_of_first_notna (pre post : list row) (r : row) (c : string) :
  (∀ r0, r0 ∈ pre → isna (cell r0 c) = true) →
  isna (cell r c) = false →
  ∃ acc, group_of (pre ++ r :: post) = Some acc ∧ cell acc c = cell r c.
Proof.
  intros Hpre Hr. rewrite group_of_app. simpl.
  pose proof (group_of_null pre c Hpre) as Hn.
  destruct (group_of pre) as [a|].
  - destruct (foldl_merge_first_keep post (merge_first a r) c) as (acc & -> & Hacc).
    + rewrite cell_merge_first_take; [done| |done]. by apply Hn.
    + exists acc. split; [done|]. rewrite Hacc. apply cell_merge_first_take; [|done]. by apply Hn.
  - destruct (foldl_merge_first_keep post r c Hr) as (acc & -> & Hacc). by exists acc.
Qed.

Lemma rowdict_get_fmap (f : string → value) (cols : list string) (c : string) :
  c ∈ cols → rowdict_get ((λ c, (c, f c)) <$> cols) c = f c.
Proof.
  induction cols as [|c0 cols IH]; [by intros ?%elem_of_nil|].
  simpl. destruct (decide (c0 = c)) as [->|Hne]; [done|].
  rewrite elem_of_cons. intros [?|?]; [congruence|by apply IH].
Qed.

Lemma rowdict_get_observation (header : list string) (r : row) (c : string) :
  c ∈ field_names header → rowdict_get (observation header r) c = cell r c.
Proof. apply (rowdict_get_fmap (cell r)). Qed.

(** X8: in the last chunk of the file, a field of the observation
    stored under a key is the first value that is not null among the
    records of the key, in file order, whatever the chunks before
    have stored. *)
Theorem build_weather_map_first_notna `{DateParser} (header : list string)
    (chunks : list (list row)) (pre post : list row) (r : row)
    (k : weather_key) (c : string) :
  "valid" ∈ header → "station" ∈ header →
  record_key r = Some k →
  (∀ r0, r0 ∈ pre → record_key r0 = Some k → isna (cell r0 c) = true) →
  c ∈ field_names header →
  isna (cell r c) = false →
  ∃ mapping cols w,
    build_weather_map (mkWeather header (chunks ++ [pre ++ r :: post])) = Ok (mapping, cols) ∧
    mapping !! k = Some w ∧
    rowdict_get w c = cell r c.
Proof.
  intros Hv Hs Hk Hpre Hc Hr.
  rewrite build_weather_map_ok by done. rewrite foldl_snoc.
  set (st := foldl (index_step header) (∅, None) chunks).
  assert (Hex : c ∉ ["station"; "valid"; "valid_15"]).
  { apply field_names_spec in Hc as (_ & ? & ? & ?).
    rewrite !not_elem_of_cons. repeat split; try done. apply not_elem_of_nil. }
  destruct (prepare_record r) as [r'|] eqn:Hr';
    [|destruct (proj2 (prepare_record_is_Some r) (mk_is_Some _ _ Hk)); congruence].
  assert (Hg : ∃ acc,
    group_lookup k (groupby_first (prepare_chunk (mkFrame header (pre ++ r :: post)))) = Some acc ∧
    cell acc c = cell r c).
  { rewrite group_lookup_groupby_first, prepare_chunk_eq. simpl rows.
    rewrite omap_app. simpl. rewrite Hr'. rewrite filter_app, filter_cons_True
      by (rewrite (prepare_record_key r r' Hr'); exact Hk).
    rewrite <- (prepare_record_cell r r' c Hr' Hex).
    apply group_of_first_notna.
    - intros r0' [Hk0 (r0 & Hr0 & Hp0)%list_elem_of_omap]%list_elem_of_filter.
      rewrite (prepare_record_cell r0 r0' c Hp0 Hex). apply Hpre; [done|].
      by rewrite <- (prepare_record_key r0 r0' Hp0).
    - by rewrite (prepare_record_cell r r' c Hr' Hex). }
  destruct Hg as (acc & Hacc & Hcell).
  do 2 eexists. exists (observation header acc). split; [done|]. split.
  - simpl. unfold index_step.
    rewrite foldl_store_group_lookup by apply NoDup_groupby_first.
    rewrite Hacc, store_group_eq by done. simpl. apply lookup_insert_eq.
  - by rewrite rowdict_get_observation.
Qed.

Lemma build_weather_map_first_notna_witness :
  ∃ mapping cols w,
    build_weather_map (H := Iso.parser) (mkWeather ["station"; "valid"; "temp"; "hum"]
      ([] ++ [ [ {[ "station" := VStr "LGA"; "valid" := VStr "2024-01-01 07:31:00";
                    "temp" := VInt 1; "hum" := VInt 0 ]};
                 {[ "station" := VStr "JFK"; "valid" := VStr "2024-01-01 07:31:00";
                    "temp" := VNaN; "hum" := VInt 1 ]} ] ++
               {[ "station" := VStr "JFK"; "valid" := VStr "2024-01-01 07:29:00";
                  "temp" := VInt 9; "hum" := VInt 2 ]} ::
               [ {[ "station" := VStr "JFK"; "valid" := VStr "2024-01-01 07:30:00";
                    "temp" := VInt 7; "hum" := VInt 3 ]} ] ])) = Ok (mapping, cols) ∧
    mapping !! ("JFK", mkTimestamp 2024 1 1 7 30 0 0 0) = Some w ∧
    rowdict_get w "temp" = VInt 9.
Proof.
  destruct (build_weather_map_first_notna (H := Iso.parser)
           ["station"; "valid"; "temp"; "hum"] []
           [ {[ "station" := VStr "LGA"; "valid" := VStr "2024-01-01 07:31:00";
                "temp" := VInt 1; "hum" := VInt 0 ]};
             {[ "station" := VStr "JFK"; "valid" := VStr "2024-01-01 07:31:00";
                "temp" := VNaN; "hum" := VInt 1 ]} ]
           [ {[ "station" := VStr "JFK"; "valid" := VStr "2024-01-01 07:30:00";
                "temp" := VInt 7; "hum" := VInt 3 ]} ]
           {[ "station" := VStr "JFK"; "valid" := VStr "2024-01-01 07:29:00";
              "temp" := VInt 9; "hum" := VInt 2 ]}
           ("JFK", mkTimestamp 2024 1 1 7 30 0 0 0) "temp")
    as (mapping & cols & w & Hb & Hm & Hw).
  - compute_done.
  - compute_done.
  - vm_compute. reflexivity.
  - intros r0 Hr0 Hk0.
    apply elem_of_cons in Hr0 as [->|Hr0]; [by vm_compute in Hk0|].
    apply list_elem_of_singleton in Hr0 as ->. vm_compute. reflexivity.
  - compute_done.
  - vm_compute. reflexivity.
  - exists mapping, cols, w. split; [exact Hb|]. split; [exact Hm|].
    rewrite Hw. vm_compute. reflexivity.
Defined.

Section Legs.

Context `{DateParser}.
Context (weather_map : gmap weather_key rowdict) (weather_cols : list string).
Context (derive : bool) (r : row).

Lemma leg_time_plain (l : leg) :
  leg_time l ∉ ["FL_DATE_TS"; "ORIGIN"; "DEST"; "YEAR"; "MONTH"].
Proof. destruct l; compute_done. Qed.

Lemma staged_row_cell_station (l : leg) :
  cell (staged_row weather_cols derive r) (leg_station l) =
    VStr (normalize_station (cell r (leg_station l))).
Proof. destruct l; [apply staged_row_cell_origin|apply staged_row_cell_dest]. Qed.

Lemma staged_row_cell_round (l : leg) :
  cell (staged_row weather_cols derive r) (leg_round l) =
    if decide ("ROUND" ∈ weather_cols) then VNA
    else compute_rounded_dt (dated_row derive r) (leg_time l).
Proof. destruct l; [apply staged_row_cell_dep_round|apply staged_row_cell_arr_round]. Qed.

Lemma leg_round_prefixed (l : leg) :
  leg_round l ∈ prefixed_columns weather_cols ↔ "ROUND" ∈ weather_cols.
Proof. destruct l; [apply dep_round_prefixed|apply arr_round_prefixed]. Qed.

Lemma leg_prefixed (l : leg) (wc : string) :
  wc ∈ weather_cols → leg_prefix l +:+ wc ∈ prefixed_columns weather_cols.
Proof. intros Hwc. apply elem_of_prefixed_columns. exists wc. destruct l; auto. Qed.

(** A leg in the output row: the bucket, and the fields that the
    index has under the station and the bucket. *)
Lemma enrich_row_leg (l : leg) :
  "ROUND" ∉ weather_cols →
  let b := compute_rounded_dt (dated_row derive r) (leg_time l) in
  let r' := enrich_row weather_map weather_cols derive r in
  cell r' (leg_round l) = b ∧
  ∀ wc, wc ∈ weather_cols →
    r' !! (leg_prefix l +:+ wc) =
      Some (match leg_key (VStr (normalize_station (cell r (leg_station l)))) b
                  ≫= (weather_map !!.) with
            | Some w => rowdict_get w wc
            | None => VNA
            end).
Proof.
  intros Hround b r'. subst r'. rewrite enrich_row_staged. split.
  - unfold cell at 1. rewrite attach_row_lookup_other by (by rewrite leg_round_prefixed).
    fold (cell (staged_row weather_cols derive r) (leg_round l)).
    by rewrite staged_row_cell_round, decide_False.
  - intros wc Hwc.
    pose proof (staged_row_cell_station l) as Hst.
    pose proof (staged_row_cell_round l) as Hrd. rewrite decide_False in Hrd by done.
    fold b in Hrd.
    destruct (leg_key _ b ≫= (weather_map !!.)) as [w|] eqn:Hk.
    + destruct l; simpl in *.
      * apply attach_row_dep_some; [|done]. by rewrite Hst, Hrd.
      * apply attach_row_arr_some; [|done]. by rewrite Hst, Hrd.
    + destruct l; simpl in *.
      * rewrite attach_row_dep_none by (by rewrite Hst, Hrd).
        apply staged_row_lookup_prefixed, (leg_prefixed Dep), Hwc.
      * rewrite attach_row_arr_none by (by rewrite Hst, Hrd).
        apply staged_row_lookup_prefixed, (leg_prefixed Arr), Hwc.
Qed.

End Legs.

(** X9: the rule of a leg.  For a flight whose date and leg time
    parse, the rounded time of the leg is the bucket of the date at
    that time, and every weather field of the leg is the field of the
    observation stored under the normalised station and that bucket,
    [pd.NA] when the index has no such key (the weather file having
    no column named [ROUND]). *)
Theorem attach_weather_leg `{DateParser} (w : weather_csv) (fdf : frame)
    (weather_map : gmap weather_key rowdict) (weather_cols : list string)
    (i : nat) (r : row) (l : leg) (h m : Z) (d : Timestamp) :
  build_weather_map w = Ok (weather_map, weather_cols) →
  readable fdf →
  "ROUND" ∉ weather_cols →
  rows fdf !! i = Some r →
  parse_flight_date (cell r "FL_DATE") = VTs d →
  parse_time_str (cell r (leg_time l)) = Some (h, m) →
  let k := (normalize_station (cell r (leg_station l)), quantize (replace_time d h m 0 0)) in
  ∃ out r',
    attach_weather w fdf = Ok out ∧
    rows out !! i = Some r' ∧
    cell r' (leg_round l) = VTs k.2 ∧
    ∀ wc, wc ∈ weather_cols →
      r' !! (leg_prefix l +:+ wc) = Some (attached weather_map k wc).
Proof.
  intros Hb Hr Hround Hi Hd Hp k.
  eexists _, _. split; [by apply attach_weather_ok|]. simpl.
  split; [by rewrite list_lookup_fmap, Hi|].
  set (derive := lacks_year_month _).
  destruct (enrich_row_leg weather_map weather_cols derive r l Hround) as [Hcell Hfields].
  rewrite (compute_rounded_dt_dated derive r (leg_time l) h m d) in Hcell, Hfields
    by (done || apply leg_time_plain).
  split; [exact Hcell|]. intros wc Hwc. by rewrite Hfields.
Qed.

Lemma attach_weather_leg_witness :
  ∃ out r',
    attach_weather (H := Iso.parser) example_weather example_flights = Ok out ∧
    rows out !! 0%nat = Some r' ∧
    cell r' "DEP_ROUND" = VTs (mkTimestamp 2024 1 1 7 30 0 0 0) ∧
    ∀ wc, wc ∈ ["temp"] →
      r' !! ("DEP_" +:+ wc) =
        Some (attached {[ ("JFK", mkTimestamp 2024 1 1 7 30 0 0 0) := [("temp", VInt 5)] ]}
                       ("JFK", mkTimestamp 2024 1 1 7 30 0 0 0) wc).
Proof.
  apply (attach_weather_leg (H := Iso.parser) example_weather example_flights
           _ ["temp"] 0 example_flight Dep 7 30 (mkTimestamp 2024 1 1 0 0 0 0 0)).
  - exact example_weather_index.
  - exact example_flights_readable.
  - compute_done.
  - reflexivity.
  - vm_compute. reflexivity.
  - vm_compute. reflexivity.
Defined.

(** X10: a weather column named [ROUND] disables the join: its
    prefixed columns are [DEP_ROUND] and [ARR_ROUND], the rounded
    times are overwritten by [pd.NA] before the lookup, and every
    weather field of every output row stays [pd.NA]. *)
Theorem attach_weather_round_collision `{DateParser} (w : weather_csv) (fdf : frame)
    (weather_map : gmap weather_key rowdict) (weather_cols : list string) :
  build_weather_map w = Ok (weather_map, weather_cols) →
  readable fdf →
  "ROUND" ∈ weather_cols →
  ∃ out,
    attach_weather w fdf = Ok out ∧
    ∀ r', r' ∈ rows out →
      cell r' "DEP_ROUND" = VNA ∧ cell r' "ARR_ROUND" = VNA ∧
      ∀ wc, wc ∈ weather_cols →
        r' !! ("DEP_" +:+ wc) = Some VNA ∧ r' !! ("ARR_" +:+ wc) = Some VNA.
Proof.
  intros Hb Hr Hround.
  eexists. split; [by apply attach_weather_ok|]. simpl.
  set (derive := lacks_year_month _).
  intros r' (r & -> & _)%list_elem_of_fmap.
  rewrite enrich_row_staged.
  pose proof (staged_row_cell_round weather_cols derive r Dep) as Hdep.
  pose proof (staged_row_cell_round weather_cols derive r Arr) as Harr.
  rewrite decide_True in Hdep, Harr by done. simpl in Hdep, Harr.
  assert (Hfields : ∀ wc, wc ∈ weather_cols →
    attach_row weather_map weather_cols (staged_row weather_cols derive r) !! ("DEP_" +:+ wc) = Some VNA ∧
    attach_row weather_map weather_cols (staged_row weather_cols derive r) !! ("ARR_" +:+ wc) = Some VNA).
  { intros wc Hwc. split.
    - rewrite attach_row_dep_none by (by rewrite Hdep).
      apply staged_row_lookup_prefixed, (leg_prefixed weather_cols Dep), Hwc.
    - rewrite attach_row_arr_none by (by rewrite Harr).
      apply staged_row_lookup_prefixed, (leg_prefixed weather_cols Arr), Hwc. }
  split; [|split; [|done]].
  - unfold cell. change "DEP_ROUND" with ("DEP_" +:+ "ROUND").
    by rewrite (proj1 (Hfields "ROUND" Hround)).
  - unfold cell. change "ARR_ROUND" with ("ARR_" +:+ "ROUND").
    by rewrite (proj2 (Hfields "ROUND" Hround)).
Qed.

Lemma attach_weather_round_collision_witness :
  ∃ out,
    attach_weather (H := Iso.parser)
      (mkWeather ["station"; "valid"; "ROUND"]
         [[ {[ "station" := VStr "JFK"; "valid" := VStr "2024-01-01 07:31:00";
               "ROUND" := VInt 5 ]} ]])
      example_flights = Ok out ∧
    ∀ r', r' ∈ rows out → cell r' "DEP_ROUND" = VNA ∧ r' !! "DEP_ROUND" = Some VNA.
Proof.
  pose proof (build_weather_map_ok (H := Iso.parser) ["station"; "valid"; "ROUND"]
                [[ {[ "station" := VStr "JFK"; "valid" := VStr "2024-01-01 07:31:00";
                      "ROUND" := VInt 5 ]} ]]
                ltac:(compute_done) ltac:(compute_done)) as Hb.
  destruct (attach_weather_round_collision (H := Iso.parser) _ example_flights _ _
              Hb example_flights_readable) as (out & Ho & Hrows); [compute_done|].
  exists out. split; [exact Ho|].
  intros r' Hr'. destruct (Hrows r' Hr') as (Hdep & _ & Hf).
  split; [exact Hdep|]. apply (Hf "ROUND"). compute_done.
Defined.

(** ** The first of the month *)



Section Fallback.

Context `{DateParser}.
Context (r : row).



End Fallback.







(** ** The derived year and month *)


Section Derived.

Context `{DateParser}.
Context (r : row).



End Derived.



(** ** When the run returns, and what it raises *)

Lemma map_result_fmap {A B C : Type} (f : B → result C) (g : A → B) (l : list A) :
  map_result f (g <$> l) = map_result (λ a, f (g a)) l.
Proof.
  induction l as [|a l IH]; [done|].
  change (map_result f (g <$> a :: l))
    with (f (g a) ≫= λ b, map_result f (g <$> l) ≫= λ bs, Ok (b :: bs)).
  by rewrite IH.
Qed.

Lemma map_result_ext {A B : Type} (f g : A → result B) (l : list A) :
  (∀ a, f a = g a) → map_result f l = map_result g l.
Proof. intros Hfg. induction l as [|a l IH]; [done|]. simpl. by rewrite Hfg, IH. Qed.


Lemma map_result_first_raise {A B : Type} (f : A → result B)
    (pre post : list A) (a : A) (e : exn) :
  Forall (λ a, ∃ b, f a = Ok b) pre → f a = Raise e →
  map_result f (pre ++ a :: post) = Raise e.
Proof.
  intros Hpre Ha. induction Hpre as [|a0 pre [b Hb] _ IH]; simpl.
  - by rewrite Ha.
  - by rewrite Hb, IH.
Qed.

Section Failures.

Context `{DateParser}.
Context (w : weather_csv) (fdf : frame).

Lemma attach_weather_raise_index (e : exn) :
  build_weather_map w = Raise e → attach_weather w fdf = Raise e.
Proof. intros Hb. unfold attach_weather. by rewrite Hb. Qed.

Lemma require_column_raise (c : string) (df : frame) :
  c ∉ columns df → require_column c df = Raise (KeyError c).
Proof. intros Hc. unfold require_column. by rewrite decide_False. Qed.

Context (wm : gmap weather_key rowdict * list string).
Hypothesis index_built : build_weather_map w = Ok wm.

Lemma attach_weather_no_date :
  "FL_DATE" ∉ columns fdf → attach_weather w fdf = Raise (KeyError "FL_DATE").
Proof.
  intros Hc. unfold attach_weather. rewrite index_built, result_bind_ok.
  destruct wm as [weather_map weather_cols].
  by rewrite (require_column_raise "FL_DATE").
Qed.

Lemma attach_weather_no_origin :
  "FL_DATE" ∈ columns fdf → "ORIGIN" ∉ columns fdf →
  attach_weather w fdf = Raise (KeyError "ORIGIN").
Proof.
  intros Hf Hc. unfold attach_weather. rewrite index_built, result_bind_ok.
  destruct wm as [weather_map weather_cols].
  rewrite (require_column_ok "FL_DATE") by done. rewrite result_bind_ok.
  rewrite (require_column_raise "ORIGIN"); [done|].
  rewrite columns_assign_by, elem_of_add_column. intros [?|?]; done.
Qed.

Lemma attach_weather_no_dest :
  "FL_DATE" ∈ columns fdf → "ORIGIN" ∈ columns fdf → "DEST" ∉ columns fdf →
  attach_weather w fdf = Raise (KeyError "DEST").
Proof.
  intros Hf Ho Hc. unfold attach_weather. rewrite index_built, result_bind_ok.
  destruct wm as [weather_map weather_cols].
  rewrite (require_column_ok "FL_DATE") by done. rewrite result_bind_ok.
  rewrite (require_column_ok "ORIGIN")
    by (rewrite columns_assign_by, elem_of_add_column; auto).
  rewrite result_bind_ok.
  rewrite (require_column_raise "DEST"); [done|].
  rewrite !columns_assign_by, !elem_of_add_column. intros [?|[?|?]]; done.
Qed.

(** With the three columns, the run is as far as the derivation of
    [YEAR] and [MONTH]. *)
Lemma attach_weather_dates :
  "FL_DATE" ∈ columns fdf → "ORIGIN" ∈ columns fdf → "DEST" ∈ columns fdf →
  "YEAR" ∉ columns fdf ∨ "MONTH" ∉ columns fdf →
  ∀ e, map_result (λ r, to_datetime_strict (cell r "FL_DATE")) (rows fdf) = Raise e →
       attach_weather w fdf = Raise e.
Proof.
  intros Hf Ho Hd Hym e He. unfold attach_weather. rewrite index_built, result_bind_ok.
  destruct wm as [weather_map weather_cols].
  rewrite (require_column_ok "FL_DATE") by done. rewrite result_bind_ok.
  rewrite (require_column_ok "ORIGIN")
    by (rewrite columns_assign_by, elem_of_add_column; auto).
  rewrite result_bind_ok.
  rewrite (require_column_ok "DEST")
    by (rewrite !columns_assign_by, !elem_of_add_column; auto).
  rewrite result_bind_ok.
  set (fdf3 := assign_by "DEST" _ _).
  assert (columns fdf3 = add_column "FL_DATE_TS" (columns fdf)) as Hcols.
  { subst fdf3. rewrite !columns_assign_by.
    rewrite (add_column_present "ORIGIN") by (rewrite elem_of_add_column; auto).
    by rewrite (add_column_present "DEST") by (rewrite elem_of_add_column; auto). }
  assert (rows fdf3 = normalize_row <$> rows fdf) as Hrows.
  { subst fdf3. rewrite !rows_assign_by, <- !list_fmap_compose. done. }
  unfold add_year_month. rewrite decide_True.
  2:{ rewrite Hcols, !elem_of_add_column.
      destruct Hym as [Hy|Hm]; [left|right]; intros [?|?]; done. }
  rewrite Hrows, map_result_fmap.
  rewrite (map_result_ext _ (λ r, to_datetime_strict (cell r "FL_DATE"))).
  - by rewrite He.
  - intros r. unfold normalize_row. by rewrite !cell_insert_ne.
Qed.

End Failures.



(** X12: what [attach_weather] raises: the error of the index
    builder first, then a [KeyError] for the first of [FL_DATE],
    [ORIGIN] and [DEST] the flights lack, then, when [YEAR] or
    [MONTH] is to be derived, the error of the first row whose
    [FL_DATE] is not a date. *)
Theorem attach_weather_raises `{DateParser} (w : weather_csv) (fdf : frame) :
  (∀ e, build_weather_map w = Raise e → attach_weather w fdf = Raise e) ∧
  (∀ wm, build_weather_map w = Ok wm →
     ("FL_DATE" ∉ columns fdf → attach_weather w fdf = Raise (KeyError "FL_DATE")) ∧
     ("FL_DATE" ∈ columns fdf → "ORIGIN" ∉ columns fdf →
        attach_weather w fdf = Raise (KeyError "ORIGIN")) ∧
     ("FL_DATE" ∈ columns fdf → "ORIGIN" ∈ columns fdf → "DEST" ∉ columns fdf →
        attach_weather w fdf = Raise (KeyError "DEST")) ∧
     ("FL_DATE" ∈ columns fdf → "ORIGIN" ∈ columns fdf → "DEST" ∈ columns fdf →
      "YEAR" ∉ columns fdf ∨ "MONTH" ∉ columns fdf →
      ∀ pre r post e,
        rows fdf = pre ++ r :: post →
        Forall (λ r0, ∃ v, to_datetime_strict (cell r0 "FL_DATE") = Ok v) pre →
        to_datetime_strict (cell r "FL_DATE") = Raise e →
        attach_weather w fdf = Raise e)).
Proof.
  split; [apply attach_weather_raise_index|].
  intros wm Hb.
  split; [by apply attach_weather_no_date with wm|].
  split; [by apply attach_weather_no_origin with wm|].
  split; [by apply attach_weather_no_dest with wm|].
  intros Hf Ho Hd Hym pre r post e Hrows Hpre He.
  apply (attach_weather_dates w fdf wm Hb Hf Ho Hd Hym).
  rewrite Hrows. by apply map_result_first_raise.
Qed.

Lemma attach_weather_raises_witness :
  attach_weather (H := Iso.parser) example_weather
    (mkFrame ["FL_DATE"; "DEST"; "DEP_TIME"] []) = Raise (KeyError "ORIGIN") ∧
  attach_weather (H := Iso.parser) example_weather
    (mkFrame ["FL_DATE"; "ORIGIN"; "DEST"]
       [ {[ "FL_DATE" := VStr "2024-01-01"; "ORIGIN" := VStr "JFK"; "DEST" := VStr "LAX" ]};
         {[ "FL_DATE" := VStr "January"; "ORIGIN" := VStr "JFK"; "DEST" := VStr "LAX" ]} ]) =
    Raise (ValueError "Unknown datetime string format").
Proof.
  split.
  - apply (proj2 (attach_weather_raises (H := Iso.parser) example_weather
                    (mkFrame ["FL_DATE"; "DEST"; "DEP_TIME"] [])) _ example_weather_index);
      compute_done.
  - apply (proj2 (proj2 (proj2 (proj2 (attach_weather_raises (H := Iso.parser) example_weather
             (mkFrame ["FL_DATE"; "ORIGIN"; "DEST"]
                [ {[ "FL_DATE" := VStr "2024-01-01"; "ORIGIN" := VStr "JFK"; "DEST" := VStr "LAX" ]};
                  {[ "FL_DATE" := VStr "January"; "ORIGIN" := VStr "JFK"; "DEST" := VStr "LAX" ]} ]))
             _ example_weather_index))))
      with (pre := [ {[ "FL_DATE" := VStr "2024-01-01"; "ORIGIN" := VStr "JFK";
                        "DEST" := VStr "LAX" ]} ])
           (r := {[ "FL_DATE" := VStr "January"; "ORIGIN" := VStr "JFK"; "DEST" := VStr "LAX" ]})
           (post := []).
    + compute_done.
    + compute_done.
    + compute_done.
    + left. compute_done.
    + reflexivity.
    + constructor; [|constructor]. eexists. vm_compute. reflexivity.
    + vm_compute. reflexivity.
Defined.
